(** * SEO content brief generator (src/app.py): a shallow embedding

    Text is modelled as Stdlib [string]s over the ASCII range: [str.lower],
    [str.strip], [str.split], [str.title] and the [\w] class of [re] are
    written out for ASCII code points, where Python's definitions are
    exact.  Python dicts with a fixed key order are association lists in
    insertion order. *)

From Stdlib Require Import String Ascii List Bool Arith ZArith Lia QArith Sorting.Sorted Sorting.Permutation.
Import ListNotations.
Open Scope nat_scope.
Open Scope list_scope.

(* ------------------------------------------------------------------ *)
(** ** Python string primitives *)

Module Py.

Definition code (c : ascii) : nat := nat_of_ascii c.

(** [str.isspace] on ASCII: \t \n \v \f \r, the separators \x1c..\x1f
    and the blank. *)
Definition is_space (c : ascii) : bool :=
  let n := code c in
  ((9 <=? n) && (n <=? 13)) || ((28 <=? n) && (n <=? 32)).

Definition is_upper (c : ascii) : bool :=
  let n := code c in (65 <=? n) && (n <=? 90).

Definition is_lower (c : ascii) : bool :=
  let n := code c in (97 <=? n) && (n <=? 122).

Definition is_digit (c : ascii) : bool :=
  let n := code c in (48 <=? n) && (n <=? 57).

Definition lower_char (c : ascii) : ascii :=
  if is_upper c then ascii_of_nat (code c + 32) else c.

Definition upper_char (c : ascii) : ascii :=
  if is_lower c then ascii_of_nat (code c - 32) else c.

(** [str.lower] *)
Fixpoint lower (s : string) : string :=
  match s with
  | EmptyString => EmptyString
  | String c t => String (lower_char c) (lower t)
  end.

(** [str.lstrip()] *)
Fixpoint lstrip (s : string) : string :=
  match s with
  | EmptyString => EmptyString
  | String c t => if is_space c then lstrip t else s
  end.

Definition rev_string (s : string) : string :=
  string_of_list_ascii (rev (list_ascii_of_string s)).

(** [str.rstrip()] *)
Definition rstrip (s : string) : string :=
  rev_string (lstrip (rev_string s)).

(** [str.strip()] *)
Definition strip (s : string) : string := rstrip (lstrip s).

(** [needle in hay] for strings: a substring test; the empty string is
    in every string. *)
Fixpoint contains (needle hay : string) : bool :=
  prefix needle hay ||
  match hay with
  | EmptyString => false
  | String _ t => contains needle t
  end.

(** [str.split()] without arguments: the maximal runs of non-space
    characters.  [cur] is the word being read, reversed. *)
Fixpoint split_go (s : string) (cur : list ascii) : list string :=
  match s with
  | EmptyString =>
      match cur with [] => [] | _ => [string_of_list_ascii (rev cur)] end
  | String c t =>
      if is_space c then
        match cur with
        | [] => split_go t []
        | _ => string_of_list_ascii (rev cur) :: split_go t []
        end
      else split_go t (c :: cur)
  end.

Definition split (s : string) : list string := split_go s [].

(** [str.title()]: a cased character is upper-cased when the previous
    character is uncased and lower-cased otherwise. *)
Fixpoint title_go (prev_cased : bool) (s : string) : string :=
  match s with
  | EmptyString => EmptyString
  | String c t =>
      let cased := is_upper c || is_lower c in
      let c' := if cased then (if prev_cased then lower_char c else upper_char c) else c in
      String c' (title_go cased t)
  end.

Definition title (s : string) : string := title_go false s.

(** [sep.join(xs)] *)
Definition join (sep : string) (xs : list string) : string := String.concat sep xs.

(** [s[:n]] *)
Definition take (n : nat) (s : string) : string := substring 0 n s.

(** The [\w] class of [re] on ASCII. *)
Definition is_word_char (c : ascii) : bool :=
  is_upper c || is_lower c || is_digit c || (code c =? 95).

(** [re.findall(r'\b\w+\b', s)]: the maximal runs of word characters. *)
Fixpoint words_go (s : string) (cur : list ascii) : list string :=
  match s with
  | EmptyString =>
      match cur with [] => [] | _ => [string_of_list_ascii (rev cur)] end
  | String c t =>
      if is_word_char c then words_go t (c :: cur)
      else
        match cur with
        | [] => words_go t []
        | _ => string_of_list_ascii (rev cur) :: words_go t []
        end
  end.

Definition find_words (s : string) : list string := words_go s [].

End Py.

(* ------------------------------------------------------------------ *)
(** ** Heading extraction ([extract_headings_from_url], lines 188-210) *)

(** A parsed page as BeautifulSoup sees it: its elements in document
    order, each with its tag name and its [get_text()]. *)
Record element := mkElement { tag : string; elem_text : string }.
Definition document := list element.

(** [{"h1": [], ..., "h6": []}]: a dict keyed by tag name, in this order. *)
Definition heading_levels : list string :=
  ["h1"; "h2"; "h3"; "h4"; "h5"; "h6"]%string.

Definition headings := list (string * list string).

Definition empty_headings : headings :=
  map (fun l => (l, [])) heading_levels.

(** [soup.find_all(level)] *)
Definition find_all (level : string) (doc : document) : list element :=
  filter (fun e => String.eqb (tag e) level) doc.

(** [for heading in soup.find_all(level): text = heading.get_text().strip();
    if text: headings[level].append(text)] *)
Fixpoint collect_level (found : list element) (acc : list string) : list string :=
  match found with
  | [] => acc
  | e :: rest =>
      let text := Py.strip (elem_text e) in
      if String.eqb text "" then collect_level rest acc
      else collect_level rest (acc ++ [text])
  end.

(** The body of the [try] block once the page is parsed. *)
Definition extract_headings (doc : document) : headings :=
  map (fun level => (level, collect_level (find_all level doc) [])) heading_levels.

(** The headings of a result dict read out level by level, as the dict's
    iteration order gives them. *)
Definition flatten (hs : headings) : list (string * string) :=
  flat_map (fun '(l, ts) => map (fun t => (l, t)) ts) hs.

Fixpoint index_of (x : string) (xs : list string) : nat :=
  match xs with
  | [] => 0
  | y :: ys => if String.eqb x y then 0 else S (index_of x ys)
  end.

Definition level_rank (l : string) : nat := index_of l heading_levels.

(* ------------------------------------------------------------------ *)
(** ** Python dicts keyed by strings, in insertion order *)

Module Dict.

(** [d[k]] when [k] is present. *)
Fixpoint get {V} (k : string) (d : list (string * V)) : option V :=
  match d with
  | [] => None
  | (k', v) :: r => if String.eqb k k' then Some v else get k r
  end.

(** [d[k] = v]: an existing key keeps its position, a new key goes last. *)
Fixpoint set {V} (k : string) (v : V) (d : list (string * V)) : list (string * V) :=
  match d with
  | [] => [(k, v)]
  | (k', v') :: r => if String.eqb k k' then (k', v) :: r else (k', v') :: set k v r
  end.

(** [d[k] += 1] on a key that is present. *)
Fixpoint incr (k : string) (d : list (string * nat)) : list (string * nat) :=
  match d with
  | [] => []
  | (k', v) :: r => if String.eqb k k' then (k', S v) :: r else (k', v) :: incr k r
  end.

End Dict.

(** A value tested by [if not x]: [None], an empty dict, or a non-empty
    dict of the given shape. *)
Inductive pyval (A : Type) : Type :=
| PyNone : pyval A
| PyEmptyDict : pyval A
| PyDict : A -> pyval A.
Arguments PyNone {A}.
Arguments PyEmptyDict {A}.
Arguments PyDict {A} _.

Definition truthy {A} (v : pyval A) : bool :=
  match v with PyDict _ => true | _ => false end.

(* ------------------------------------------------------------------ *)
(** ** SERP data and intent analysis ([analyze_search_intent], lines 136-186) *)

(** One entry of [serp_data["organic_results"]] as [collect_serp_data]
    builds it. *)
Record organic_result := mkResult {
  title : string;
  meta_description : string;
  url : string;
  position : nat }.

Record serp_data := mkSerp {
  keyword : string;
  organic_results : list organic_result;
  paa_questions : list string }.

Definition intent_keywords : list (string * list string) :=
  [("informational", ["how to"; "what is"; "why"; "guide"; "tutorial"; "ways to"; "tips"; "learn"]);
   ("commercial", ["best"; "review"; "comparison"; "vs"; "top"; "rating"; "buy"]);
   ("transactional", ["buy"; "purchase"; "order"; "deal"; "discount"; "cheap"; "price"]);
   ("navigational", ["login"; "signin"; "official"; "website"; "app"; "download"])]%string.

(** [{intent: 0 for intent in intent_keywords}] *)
Definition initial_scores : list (string * nat) :=
  map (fun '(i, _) => (i, 0)) intent_keywords.

(** [(result["title"] + " " + result["meta_description"]).lower()] *)
Definition text_to_analyze (r : organic_result) : string :=
  Py.lower (title r ++ " " ++ meta_description r)%string.

(** [for keyword in keywords: if keyword in text: intent_scores[intent] += 1] *)
Fixpoint score_keywords (intent : string) (kws : list string) (text : string)
    (scores : list (string * nat)) : list (string * nat) :=
  match kws with
  | [] => scores
  | kw :: rest =>
      score_keywords intent rest text
        (if Py.contains kw text then Dict.incr intent scores else scores)
  end.

(** [for intent, keywords in intent_keywords.items(): ...] *)
Fixpoint score_intents (ik : list (string * list string)) (text : string)
    (scores : list (string * nat)) : list (string * nat) :=
  match ik with
  | [] => scores
  | (intent, kws) :: rest => score_intents rest text (score_keywords intent kws text scores)
  end.

(** [for result in serp_data["organic_results"]: ...] *)
Fixpoint score_results (rs : list organic_result) (scores : list (string * nat))
    : list (string * nat) :=
  match rs with
  | [] => scores
  | r :: rest => score_results rest (score_intents intent_keywords (text_to_analyze r) scores)
  end.

Definition intent_scores_of (rs : list organic_result) : list (string * nat) :=
  score_results rs initial_scores.

(** [max(d, key=d.get)]: the running maximum is replaced only by a
    strictly greater value. *)
Fixpoint max_go (best : string * nat) (rest : list (string * nat)) : string :=
  match rest with
  | [] => fst best
  | (k, v) :: r => if snd best <? v then max_go (k, v) r else max_go best r
  end.

(** [max] of an empty dict raises; [intent_scores] always has four keys. *)
Definition py_max_key (d : list (string * nat)) : string :=
  match d with
  | [] => EmptyString
  | p :: r => max_go p r
  end.

(** [Counter(ws)]: counts in first-occurrence order. *)
Fixpoint counter_add (w : string) (c : list (string * nat)) : list (string * nat) :=
  match c with
  | [] => [(w, 1)]
  | (k, v) :: r => if String.eqb w k then (k, S v) :: r else (k, v) :: counter_add w r
  end.

Definition counter (ws : list string) : list (string * nat) :=
  fold_left (fun c w => counter_add w c) ws [].

(** Stable insertion into a list sorted by decreasing count: [p] goes
    after every entry whose count is at least its own. *)
Fixpoint insert_desc (p : string * nat) (l : list (string * nat)) : list (string * nat) :=
  match l with
  | [] => [p]
  | q :: r => if snd q <? snd p then p :: q :: r else q :: insert_desc p r
  end.

(** [Counter.most_common(n)] = [sorted(items, key=count, reverse=True)[:n]],
    a stable sort. *)
Definition most_common (n : nat) (c : list (string * nat)) : list (string * nat) :=
  firstn n (fold_left (fun acc p => insert_desc p acc) c []).

(** [s.split(sep)] for a one-character separator: empty fields kept. *)
Fixpoint split_char_go (sep : ascii) (s : string) (cur : list ascii) : list string :=
  match s with
  | EmptyString => [string_of_list_ascii (rev cur)]
  | String c t =>
      if Ascii.eqb c sep then string_of_list_ascii (rev cur) :: split_char_go sep t []
      else split_char_go sep t (c :: cur)
  end.

Definition split_char (sep : ascii) (s : string) : list string := split_char_go sep s [].

Record intent_analysis := mkIntent {
  dominant_intent : string;
  intent_scores : list (string * nat);
  common_title_words : list (string * nat);
  common_description_words : list (string * nat);
  common_url_patterns : list (string * nat);
  ia_paa_questions : list string }.

Section Intent.

(** [urllib.parse.urlparse(url).path], the standard library's URL parser,
    taken as given. *)
Variable url_path : string -> string.

Definition url_patterns (rs : list organic_result) : list string :=
  flat_map (fun r => filter (fun part => negb (String.eqb part ""))
                            (split_char "/" (url_path (url r)))) rs.

Definition analyze_search_intent (s : pyval serp_data) : option intent_analysis :=
  match s with
  | PyDict d =>
      let rs := organic_results d in
      let scores := intent_scores_of rs in
      let title_words := Py.find_words (Py.lower (Py.join " " (map title rs))) in
      let desc_words := Py.find_words (Py.lower (Py.join " " (map meta_description rs))) in
      Some (mkIntent (py_max_key scores) scores
              (most_common 10 (counter title_words))
              (most_common 10 (counter desc_words))
              (most_common 5 (counter (url_patterns rs)))
              (paa_questions d))
  | _ => None
  end.

End Intent.

(* ------------------------------------------------------------------ *)
(** ** The generator's state and the page fetches
       ([extract_headings_from_url], [extract_competitor_headings],
       lines 188-226) *)

(** What [requests.get(url, timeout=10)] gives: a response with its status
    code and its text as [BeautifulSoup(text, 'html.parser')] parses it
    ([None] when the parser raises), or a [RequestException]
    (connection error, timeout, ...). *)
Inductive http_response :=
| Response (status : nat) (parsed : option document)
| ConnectionFailure (reason : string).

Inductive exn :=
| RequestException (reason : string)
| HTTPError (status : nat)
| ParseError.

(** The body of the [try] block: [response.raise_for_status()] raises for
    a 4xx or 5xx status. *)
Definition fetch_and_parse (r : http_response) : exn + headings :=
  match r with
  | ConnectionFailure m => inl (RequestException m)
  | Response st parsed =>
      if (400 <=? st) && (st <? 600) then inl (HTTPError st)
      else match parsed with
           | None => inl ParseError
           | Some doc => inr (extract_headings doc)
           end
  end.

(** Observable effects: the requests sent, the [st.warning]s shown and the
    [time.sleep(1)] pauses. *)
Inductive event :=
| Request (u : string)
| Warning (u : string)
| Sleep.

(** [self.competitor_headings] and the effects so far. *)
Record gen_state := mkGen {
  competitor_headings : list (string * headings);
  log : list event }.

Definition M (A : Type) : Type := gen_state -> A * gen_state.

Definition ret {A} (a : A) : M A := fun s => (a, s).

Definition bind {A B} (m : M A) (k : A -> M B) : M B :=
  fun s => let '(a, s') := m s in k a s'.

Notation "x <- m ;; k" := (bind m (fun x => k)) (at level 61, m at next level, right associativity).
Notation "m ;;; k" := (bind m (fun _ => k)) (at level 61, right associativity).

Definition emit (e : event) : M unit :=
  fun s => (tt, mkGen (competitor_headings s) (log s ++ [e])).

Definition set_competitor_headings (ch : list (string * headings)) : M unit :=
  fun s => (tt, mkGen ch (log s)).

Section Fetch.

(** The network: the response a request to each URL gets. *)
Variable net : string -> http_response.

(** [try: ... return headings
    except Exception: st.warning(...); return {"h1": [], ..., "h6": []}] *)
Definition extract_headings_from_url (u : string) : M headings :=
  emit (Request u) ;;;
  match fetch_and_parse (net u) with
  | inl _ => emit (Warning u) ;;; ret empty_headings
  | inr hs => ret hs
  end.

(** [for result in serp_data["organic_results"]: url = result["url"];
    headings = self.extract_headings_from_url(url);
    competitor_headings[url] = headings; time.sleep(1)] *)
Fixpoint extract_loop (rs : list organic_result) (acc : list (string * headings))
    : M (list (string * headings)) :=
  match rs with
  | [] => ret acc
  | r :: rest =>
      hs <- extract_headings_from_url (url r) ;;
      emit Sleep ;;;
      extract_loop rest (Dict.set (url r) hs acc)
  end.

Definition extract_competitor_headings (s : pyval serp_data)
    : M (option (list (string * headings))) :=
  match s with
  | PyDict d =>
      ch <- extract_loop (organic_results d) [] ;;
      set_competitor_headings ch ;;;
      ret (Some ch)
  | _ => ret None
  end.

End Fetch.

(** [analyze_competitor_headings] (lines 228-247). *)
Record headings_analysis := mkHeadingsAnalysis {
  all_headings : headings;
  common_headings : list (string * list (string * nat)) }.

Definition level_of (level : string) (hs : headings) : list string :=
  match Dict.get level hs with Some ts => ts | None => [] end.

Definition analyze_competitor_headings (ch : list (string * headings))
    : option headings_analysis :=
  match ch with
  | [] => None
  | _ =>
      let all := map (fun level => (level, flat_map (fun '(_, hs) => level_of level hs) ch))
                     heading_levels in
      let common := flat_map (fun '(level, ts) =>
                        match ts with
                        | [] => []
                        | _ => [(level, most_common 10 (counter ts))]
                        end) all in
      Some (mkHeadingsAnalysis all common)
  end.

(* ------------------------------------------------------------------ *)
(** ** The content brief ([generate_content_brief] and its helpers,
       lines 249-513) *)

Open Scope string_scope.

(** [power_words.get(dominant_intent, ["Guide"])[0]] *)
Definition power_word (dominant : string) : string :=
  if String.eqb dominant "informational" then "Ultimate"
  else if String.eqb dominant "commercial" then "Best"
  else if String.eqb dominant "transactional" then "Buy"
  else if String.eqb dominant "navigational" then "Official"
  else "Guide".

Definition _generate_title_suggestion (kw : string) (ia : intent_analysis) : string :=
  let pw := power_word (dominant_intent ia) in
  let kw_words := map Py.lower (Py.split kw) in
  let common_words :=
    filter (fun w => negb (existsb (String.eqb (Py.lower w)) kw_words))
           (map fst (firstn 3 (common_title_words ia))) in
  match common_words with
  | [] => pw ++ " Guide to " ++ kw ++ ": Everything You Need to Know"
  | w0 :: rest =>
      let second := match rest with w1 :: _ => Py.title w1 | [] => "Complete" end in
      pw ++ " " ++ Py.title w0 ++ " for " ++ kw ++ ": " ++ second ++ " Guide"
  end.

(** The [if/elif] chain of templates before the length cap. *)
Definition meta_template (kw : string) (ia : intent_analysis) : string :=
  let dominant := dominant_intent ia in
  let common_words := map fst (firstn 5 (common_description_words ia)) in
  let first_or dflt := match common_words with w :: _ => w | [] => dflt end in
  if String.eqb dominant "informational" then
    "Looking for information about " ++ kw ++
    "? Our comprehensive guide covers everything you need to know. Learn about " ++
    Py.join ", " (firstn 3 common_words) ++ " and more."
  else if String.eqb dominant "commercial" then
    "Searching for the best " ++ kw ++
    "? We've reviewed and compared the top options. Find out which " ++
    first_or "product" ++ " is right for you."
  else if String.eqb dominant "transactional" then
    "Ready to buy " ++ kw ++ "? Find the best deals and prices on " ++
    first_or "quality products" ++ ". Shop now and save!"
  else
    "Looking for the official " ++ kw ++ " website? Find direct access to " ++
    (match common_words with
     | [] => "the resources you need"
     | _ => Py.join ", " (firstn 2 common_words)
     end) ++ " here.".

(** [if len(meta_desc) > 160: meta_desc = meta_desc[:157] + "..."] *)
Definition _generate_meta_description_suggestion (kw : string) (ia : intent_analysis) : string :=
  let meta_desc := meta_template kw ia in
  if (160 <? String.length meta_desc)%nat then Py.take 157 meta_desc ++ "..."
  else meta_desc.

Record section := mkSection {
  h2 : string;
  content : string;
  subsections : option (list (string * string)) }.

Record outline := mkOutline {
  outline_h1 : string;
  sections : list section }.

Definition plain (t c : string) : section := mkSection t c None.
Definition with_subs (t c : string) (subs : list (string * string)) : section :=
  mkSection t c (Some subs).

(** [for h2 in common_h2s: if not any(section["h2"] == h2 ...): append] *)
Fixpoint add_common_h2s (kw : string) (h2s : list string) (secs : list section) : list section :=
  match h2s with
  | [] => secs
  | t :: rest =>
      let secs' := if existsb (fun s => String.eqb (h2 s) t) secs then secs
                   else app secs [plain t ("Cover this important aspect of " ++ kw)] in
      add_common_h2s kw rest secs'
  end.

Definition common_h2s_of (ha : pyval headings_analysis) : list string :=
  match ha with
  | PyDict a =>
      match Dict.get "h2" (common_headings a) with
      | Some l => map fst (firstn 5 l)
      | None => []
      end
  | _ => []
  end.

Definition _generate_content_outline (kw : string) (ia : intent_analysis)
    (ha : pyval headings_analysis) : outline :=
  let dominant := dominant_intent ia in
  let common_h2s := common_h2s_of ha in
  let intro := plain ("Introduction to " ++ kw)
                 "Brief overview of what the article will cover and why the topic is important." in
  let '(body, closing) :=
    if String.eqb dominant "informational" then
      ([with_subs ("What Is " ++ kw ++ "?") "Definition and basic explanation of the concept."
          [("Key Components of " ++ kw, "Break down the main elements.");
           ("How " ++ kw ++ " Works", "Explanation of the mechanism or process.")];
        with_subs ("Benefits of " ++ kw) "List and explain the main advantages."
          [("Primary Benefits", "Most important advantages.");
           ("Secondary Benefits", "Additional advantages.")];
        plain ("Common Challenges with " ++ kw) "Discuss potential issues and how to overcome them."],
       plain "Conclusion" "Summarize key points and provide final thoughts.")
    else if String.eqb dominant "commercial" then
      ([with_subs ("Top " ++ kw ++ " Options") "Overview of the best products/services in this category."
          [("Best Overall", "Top recommendation and why.");
           ("Best Value", "Best option for the price.");
           ("Premium Choice", "High-end option for those with bigger budgets.")];
        with_subs ("Comparison of " ++ kw ++ " Features") "Side-by-side comparison of key features."
          [("Feature Comparison Table", "Visual comparison of products.");
           ("Performance Analysis", "How each option performs.")];
        plain "Pros and Cons" "Detailed list of advantages and disadvantages for each option."],
       plain "Final Recommendation" "Clear recommendation based on different use cases and needs.")
    else if String.eqb dominant "transactional" then
      ([with_subs ("Where to Buy " ++ kw) "Best places to purchase this product/service."
          [("Official Retailers", "Authorized sellers.");
           ("Online Marketplaces", "E-commerce options.")];
        with_subs "Current Deals and Discounts" "Latest promotions and special offers."
          [("Seasonal Sales", "Holiday and event-based discounts.");
           ("Coupon Codes", "Available promo codes.")];
        plain "Price Comparison" "Compare prices across different retailers."],
       plain "Best Value for Money" "Final recommendation on where to get the best deal.")
    else
      ([with_subs ("How to Access " ++ kw) "Step-by-step instructions to reach the destination."
          [("Direct Link", "Official URL.");
           ("Alternative Access Methods", "Other ways to reach the site/service.")];
        plain "Account Setup" "How to create an account if needed.";
        plain "Troubleshooting Access Issues" "Common problems and solutions."],
       plain "Getting Started" "Next steps after accessing the site/service.") in
  mkOutline ("The Ultimate Guide to " ++ kw)
    (app (add_common_h2s kw common_h2s (intro :: body)) [closing]).

Record faq_section := mkFaq {
  faq_h2 : string;
  questions : list (string * string) }.

Definition faq_answer : string :=
  "Provide a comprehensive answer to this question based on research and expertise.".

Definition _generate_faq_section (paa : list string) : faq_section :=
  match paa with
  | [] => mkFaq "Frequently Asked Questions" []
  | _ => mkFaq "Frequently Asked Questions" (map (fun q => (q, faq_answer)) (firstn 5 paa))
  end.

(** [list(set(key_topics))]: the iteration order of a Python set of
    strings depends on the hash seed; the model lists each element once,
    at its first occurrence. *)
Fixpoint dedup (xs : list string) : list string :=
  match xs with
  | [] => []
  | x :: r => x :: filter (fun y => negb (String.eqb x y)) (dedup r)
  end.

Definition _extract_key_topics (ia : intent_analysis) (ha : pyval headings_analysis) : list string :=
  dedup (app (map fst (firstn 5 (common_title_words ia)))
         (app (map fst (firstn 5 (common_description_words ia)))
              (common_h2s_of ha))).

Record content_brief := mkBrief {
  brief_keyword : string;
  title_suggestion : string;
  meta_description_suggestion : string;
  brief_dominant_intent : string;
  brief_intent_scores : list (string * nat);
  content_outline : outline;
  faq : faq_section;
  key_topics : list string;
  serp_title_words : list (string * nat);
  serp_description_words : list (string * nat);
  serp_url_patterns : list (string * nat);
  competitor_common_headings : list (string * list (string * nat)) }.

Definition generate_content_brief (kw : string) (s : pyval serp_data)
    (ia : pyval intent_analysis) (ha : pyval headings_analysis) : option content_brief :=
  match s, ia with
  | PyDict _, PyDict a =>
      Some (mkBrief kw
              (_generate_title_suggestion kw a)
              (_generate_meta_description_suggestion kw a)
              (dominant_intent a) (intent_scores a)
              (_generate_content_outline kw a ha)
              (_generate_faq_section (ia_paa_questions a))
              (_extract_key_topics a ha)
              (common_title_words a) (common_description_words a) (common_url_patterns a)
              (match ha with PyDict h => common_headings h | _ => [] end))
  | _, _ => None
  end.

Close Scope string_scope.

(* ------------------------------------------------------------------ *)
(** ** Collecting the SERP ([collect_serp_data], lines 92-134) *)

(** The SerpAPI search response as [response.json()] returns it, at the
    level of its schema: each field [.get] reads is present ([Some]) or
    absent ([None]). *)
Record api_result := mkApiResult {
  r_title : option string;
  r_snippet : option string;
  r_link : option string;
  r_position : option nat }.

Record api_search := mkApiSearch {
  a_organic_results : option (list api_result);
  a_related_questions : option (list (option string)) }.

(** What [requests.get("https://serpapi.com/search", params=...)] gives:
    a status and the decoded JSON body ([None] when [response.json()]
    raises), or a [RequestException]. *)
Inductive api_response :=
| ApiResponse (status : nat) (body : option api_search)
| ApiFailure (reason : string).

Definition get_or {A} (dflt : A) (o : option A) : A :=
  match o with Some a => a | None => dflt end.

(** [{"title": result.get("title", ""), "meta_description":
    result.get("snippet", ""), "url": result.get("link", ""),
    "position": result.get("position", 0)}] *)
Definition to_organic_result (r : api_result) : organic_result :=
  mkResult (get_or EmptyString (r_title r)) (get_or EmptyString (r_snippet r))
           (get_or EmptyString (r_link r)) (get_or 0 (r_position r)).

(** Any exception inside the [try] ([raise_for_status] on a 4xx or 5xx
    status, a body that is not JSON, a failed request) gives [None]. *)
Definition collect_serp_data (kw : string) (resp : api_response) : option serp_data :=
  match resp with
  | ApiFailure _ => None
  | ApiResponse st body =>
      if (400 <=? st) && (st <? 600) then None
      else match body with
           | None => None
           | Some search =>
               let organic := firstn 10 (get_or [] (a_organic_results search)) in
               let paa := map (get_or EmptyString) (get_or [] (a_related_questions search)) in
               Some (mkSerp kw (map to_organic_result organic) paa)
           end
  end.

(* ------------------------------------------------------------------ *)
(** ** The whole run ([generate_seo_content_brief], lines 515-542) and the
       button handler of [main] (lines 647-689) *)

Definition get_state : M gen_state := fun s => (s, s).

Definition pyval_of_option {A} (o : option A) : pyval A :=
  match o with Some a => PyDict a | None => PyNone end.

(** [keyword.replace(' ', '_')] *)
Fixpoint replace_space (s : string) : string :=
  match s with
  | EmptyString => EmptyString
  | String c t => String (if Ascii.eqb c " "%char then "_"%char else c) (replace_space t)
  end.

(** [f"{keyword.replace(' ', '_')}_seo_brief.json"] *)
Definition download_file_name (kw : string) : string :=
  (replace_space kw ++ "_seo_brief.json")%string.

Inductive main_outcome :=
| MissingKey
| MissingKeyword
| Ran (brief : option content_brief) (download : option string).

Section Run.

Variable url_path : string -> string.
(** The SerpAPI answer for an API key and a keyword. *)
Variable api : string -> string -> api_response.
Variable net : string -> http_response.

(** Steps 1 to 5; [analyze_competitor_headings] reads
    [self.competitor_headings] as step 4 left it. *)
Definition generate_seo_content_brief (key kw : string) : M (option content_brief) :=
  match collect_serp_data kw (api key kw) with
  | None => ret None
  | Some sd =>
      let s := PyDict sd in
      let ia := analyze_search_intent url_path s in
      extract_competitor_headings net s ;;;
      st <- get_state ;;
      let ha := analyze_competitor_headings (competitor_headings st) in
      ret (generate_content_brief kw s (pyval_of_option ia) (pyval_of_option ha))
  end.

(** [if generate_button:] with a fresh [SEOContentBriefGenerator(serpapi_key)]. *)
Definition main_on_click (key kw : string) : M main_outcome :=
  if String.eqb key EmptyString then ret MissingKey
  else if String.eqb kw EmptyString then ret MissingKeyword
  else
    fun s =>
      let '(r, s') := generate_seo_content_brief key kw (mkGen [] (log s)) in
      (Ran r (match r with Some _ => Some (download_file_name kw) | None => None end), s').

End Run.

(* ------------------------------------------------------------------ *)
(** ** Heading Clusterer *)

(** Modelled from the spec: the Heading Clusterer (spec section 4.2),
    whose code is not among the sources.  Greedy, single-pass, first-match
    clustering of heading strings under the case-insensitive
    Ratcliff/Obershelp ratio [2*M/T]; thresholds are rationals. *)
Module Cluster.

(** Length of the common prefix of two character lists. *)
Fixpoint common_prefix (a b : list ascii) : nat :=
  match a, b with
  | x :: a', y :: b' => if Ascii.eqb x y then S (common_prefix a' b') else 0
  | _, _ => 0
  end.

(** Longest common block [(i, j, k)]: the largest [k], then the smallest
    [i], then the smallest [j]. *)
Fixpoint scan_b (a_i : list ascii) (i j : nat) (b_j : list ascii) (best : nat * nat * nat)
    : nat * nat * nat :=
  match b_j with
  | [] => best
  | _ :: b' =>
      let k := common_prefix a_i b_j in
      let '(_, _, kb) := best in
      scan_b a_i i (S j) b' (if kb <? k then (i, j, k) else best)
  end.

Fixpoint scan_a (a_i : list ascii) (i : nat) (b : list ascii) (best : nat * nat * nat)
    : nat * nat * nat :=
  match a_i with
  | [] => best
  | _ :: a' => scan_a a' (S i) b (scan_b a_i i 0 b best)
  end.

Definition longest_match (a b : list ascii) : nat * nat * nat := scan_a a 0 b (0, 0, 0).

(** Ratcliff/Obershelp: the longest common block, then the same on the
    parts left of it and right of it.  Each call shortens [a], so
    [length a] steps suffice. *)
Fixpoint matches (fuel : nat) (a b : list ascii) : nat :=
  match fuel with
  | 0 => 0
  | S f =>
      let '(i, j, k) := longest_match a b in
      if k =? 0 then 0
      else k + matches f (firstn i a) (firstn j b)
             + matches f (skipn (i + k) a) (skipn (j + k) b)
  end.

Definition matching_chars (a b : list ascii) : nat := matches (length a) a b.

(** [2*M/T]; two empty strings are identical (ratio 1). *)
Definition ratio (a b : list ascii) : Q :=
  let T := length a + length b in
  if T =? 0 then 1%Q
  else Qmake (Z.of_nat (2 * matching_chars a b)) (Pos.of_nat T).

Definition similarity (h r : string) : Q :=
  ratio (list_ascii_of_string (Py.lower h)) (list_ascii_of_string (Py.lower r)).

Record cluster := mkCluster { representative : string; members : list string }.

(** Put [h] into the first cluster whose representative is similar
    enough, or open a new cluster after the others. *)
Fixpoint assign (t : Q) (h : string) (cs : list cluster) : list cluster :=
  match cs with
  | [] => [mkCluster h [h]]
  | c :: rest =>
      if Qle_bool t (similarity h (representative c))
      then mkCluster (representative c) (members c ++ [h]) :: rest
      else c :: assign t h rest
  end.

Definition clusters (hs : list string) (t : Q) : list cluster :=
  fold_left (fun cs h => assign t h cs) hs [].

Definition cluster_headings (hs : list string) (t : Q) : list string :=
  map representative (clusters hs t).

End Cluster.

(* ------------------------------------------------------------------ *)
(** ** Readings of the claims *)

Definition nonempty (t : string) : bool := negb (String.eqb t EmptyString).

(** The headings of one level, as the spec reads them off the page. *)
Definition level_texts (level : string) (doc : document) : list string :=
  filter nonempty (map (fun e => Py.strip (elem_text e)) (find_all level doc)).

(** Number of keywords of [kws] found in [text]. *)
Definition kw_hits (kws : list string) (text : string) : nat :=
  length (filter (fun kw => Py.contains kw text) kws).

(** The number of (result, pattern) pairs in which the pattern matches the
    result's text. *)
Definition pair_hits (rs : list organic_result) (kws : list string) : nat :=
  length (filter (fun '(r, kw) => Py.contains kw (text_to_analyze r)) (list_prod rs kws)).

Definition mk_scores (a b c d : nat) : list (string * nat) :=
  [("informational", a); ("commercial", b); ("transactional", c); ("navigational", d)]%string.

(** The URLs requested, in order, in a log of effects. *)
Definition requested (l : list event) : list string :=
  flat_map (fun e => match e with Request u => [u] | _ => [] end) l.

(** Whether fetching or parsing a page raises. *)
Definition page_fails (r : http_response) : bool :=
  match fetch_and_parse r with inl _ => true | inr _ => false end.

(** The headings a page contributes: its own, or none when it fails. *)
Definition page_headings (r : http_response) : headings :=
  match fetch_and_parse r with inl _ => empty_headings | inr hs => hs end.

(** Entries ordered by non-increasing count. *)
Definition by_count_desc (p q : string * nat) : Prop := snd q <= snd p.

(* ================================================================== *)
(** * Properties *)

(* ------------------------------------------------------------------ *)
(** ** Heading extraction *)

Lemma collect_level_spec : forall found acc,
  collect_level found acc = acc ++ filter nonempty (map (fun e => Py.strip (elem_text e)) found).
Proof.
  induction found as [|e rest IH]; intros acc; simpl.
  - now rewrite app_nil_r.
  - destruct (String.eqb (Py.strip (elem_text e)) EmptyString) eqn:E;
      rewrite IH; unfold nonempty; rewrite E; simpl.
    + reflexivity.
    + now rewrite <- app_assoc.
Qed.

Lemma flatten_extract : forall doc,
  flatten (extract_headings doc) =
  flat_map (fun l => map (fun t => (l, t)) (level_texts l doc)) heading_levels.
Proof.
  intros doc. unfold flatten, extract_headings, level_texts.
  induction heading_levels as [|l ls IH]; simpl; [reflexivity|].
  now rewrite collect_level_spec, IH.
Qed.

Lemma filter_level_pairs : forall (l l' : string) (xs : list string),
  filter (fun p => String.eqb (fst p) l) (map (fun t => (l', t)) xs) =
  if String.eqb l' l then map (fun t => (l', t)) xs else [].
Proof.
  intros l l' xs. induction xs as [|x xs IH]; simpl.
  - now destruct (String.eqb l' l).
  - rewrite IH. now destruct (String.eqb l' l).
Qed.

Lemma flat_pairs_sorted : forall (rank : string -> nat) (f : string -> list string) ls,
  StronglySorted (fun a b => rank a < rank b) ls ->
  StronglySorted (fun p q => rank (fst p) <= rank (fst q))
    (flat_map (fun l => map (fun t => (l, t)) (f l)) ls).
Proof.
  intros rank f ls Hs. induction Hs as [|l ls Hs IH Hlt]; simpl.
  - constructor.
  - induction (f l) as [|x xs IHx]; simpl; [exact IH|].
    constructor; [exact IHx|].
    apply Forall_app. split.
    + apply Forall_forall. intros p Hp. apply in_map_iff in Hp.
      destruct Hp as (t & <- & _). simpl. lia.
    + apply Forall_forall. intros p Hp. apply in_flat_map in Hp.
      destruct Hp as (l' & Hl' & Hp). apply in_map_iff in Hp.
      destruct Hp as (t & <- & _). simpl.
      rewrite Forall_forall in Hlt. specialize (Hlt l' Hl'). lia.
Qed.

Lemma heading_levels_sorted :
  StronglySorted (fun a b => level_rank a < level_rank b) heading_levels.
Proof.
  unfold heading_levels.
  repeat constructor; vm_compute; lia.
Qed.

Lemma level_texts_nonempty : forall l doc t,
  In t (level_texts l doc) -> t <> EmptyString.
Proof.
  intros l doc t Ht. unfold level_texts in Ht.
  apply filter_In in Ht. destruct Ht as [_ Hne].
  unfold nonempty in Hne. intros ->. discriminate.
Qed.

(** Length of one level: one per element of that tag with non-empty text. *)
Lemma level_texts_length : forall l doc,
  length (level_texts l doc) =
  length (filter (fun e => String.eqb (tag e) l && nonempty (Py.strip (elem_text e))) doc).
Proof.
  intros l doc. unfold level_texts, find_all.
  induction doc as [|e doc IH]; simpl; [reflexivity|].
  destruct (String.eqb (tag e) l); simpl.
  - destruct (nonempty (Py.strip (elem_text e))); simpl; congruence.
  - exact IH.
Qed.

Lemma length_flat_pairs : forall (f : string -> list string) ls,
  length (flat_map (fun l => map (fun t => (l, t)) (f l)) ls) =
  fold_right (fun l acc => length (f l) + acc) 0 ls.
Proof.
  intros f ls. induction ls as [|l ls IH]; simpl; [reflexivity|].
  now rewrite length_app, length_map, IH.
Qed.



(** C1: the extractor gathers headings level by level: for each level
    [h1..h6] its own headings in document order, stripped and with the
    empty ones dropped; read out, all level-1 headings come before all
    level-2 headings, and so on. *)
Theorem extract_headings_level_by_level : forall doc,
  let out := flatten (extract_headings doc) in
  (forall l, In l heading_levels ->
     map snd (filter (fun p => String.eqb (fst p) l) out) =
     filter nonempty (map (fun e => Py.strip (elem_text e))
                          (filter (fun e => String.eqb (tag e) l) doc))) /\
  StronglySorted (fun p q => level_rank (fst p) <= level_rank (fst q)) out /\
  Forall (fun p => In (fst p) heading_levels /\ snd p <> EmptyString) out.
Proof.
  intros doc out. unfold out. rewrite flatten_extract. split; [|split].
  - intros l Hl.
    change (filter nonempty (map (fun e => Py.strip (elem_text e))
                                 (filter (fun e => String.eqb (tag e) l) doc)))
      with (level_texts l doc).
    unfold heading_levels in Hl |- *.
    simpl in Hl.
    repeat destruct Hl as [<- | Hl]; try contradiction;
      cbn [flat_map]; rewrite !filter_app, !filter_level_pairs; cbn -[level_texts];
      rewrite ?app_nil_r, ?app_nil_l, map_map; apply map_id.
  - apply flat_pairs_sorted. exact heading_levels_sorted.
  - apply Forall_forall. intros p Hp. apply in_flat_map in Hp.
    destruct Hp as (l & Hl & Hp). apply in_map_iff in Hp.
    destruct Hp as (t & <- & Ht). simpl. split; [exact Hl|].
    exact (level_texts_nonempty l doc t Ht).
Qed.

(** C7 (counterexample): there is no cap at 600: a page with 601 [h1]
    elements yields 601 headings. *)
Lemma extract_headings_601_counterexample :
  600 < length (flatten (extract_headings (repeat (mkElement "h1" "a") 601))).
Proof. apply Nat.ltb_lt. vm_compute. reflexivity. Qed.

(** C7 (amended): the extractor applies no cap: its output has exactly one
    heading per element of tag [h1..h6] whose stripped text is non-empty,
    however many there are. *)
Theorem extract_headings_uncapped : forall doc,
  length (flatten (extract_headings doc)) =
  length (filter (fun e => existsb (String.eqb (tag e)) heading_levels
                           && nonempty (Py.strip (elem_text e))) doc).
Proof.
  intros doc. rewrite flatten_extract, length_flat_pairs.
  unfold heading_levels. cbn [fold_right existsb].
  rewrite !level_texts_length.
  induction doc as [|e d IH]; [reflexivity|].
  cbn [filter length].
  destruct (nonempty (Py.strip (elem_text e))).
  2:{ rewrite !andb_false_r. exact IH. }
  rewrite !andb_true_r. remember (tag e) as x eqn:Ex. clear Ex.
  destruct (String.eqb_spec x "h1") as [->|N1]; [cbn; lia|].
  destruct (String.eqb_spec x "h2") as [->|N2]; [cbn; lia|].
  destruct (String.eqb_spec x "h3") as [->|N3]; [cbn; lia|].
  destruct (String.eqb_spec x "h4") as [->|N4]; [cbn; lia|].
  destruct (String.eqb_spec x "h5") as [->|N5]; [cbn; lia|].
  destruct (String.eqb_spec x "h6") as [->|N6]; [cbn; lia|].
  cbn. exact IH.
Qed.

(* ------------------------------------------------------------------ *)
(** ** Intent scores *)

Ltac incr_scores := intros; cbn; reflexivity.

Lemma incr_informational : forall a b c d,
  Dict.incr "informational" (mk_scores a b c d) = mk_scores (S a) b c d.
Proof. incr_scores. Qed.
Lemma incr_commercial : forall a b c d,
  Dict.incr "commercial" (mk_scores a b c d) = mk_scores a (S b) c d.
Proof. incr_scores. Qed.
Lemma incr_transactional : forall a b c d,
  Dict.incr "transactional" (mk_scores a b c d) = mk_scores a b (S c) d.
Proof. incr_scores. Qed.
Lemma incr_navigational : forall a b c d,
  Dict.incr "navigational" (mk_scores a b c d) = mk_scores a b c (S d).
Proof. incr_scores. Qed.

Ltac score_keywords_tac incr_lemma :=
  intros kws text; induction kws as [|kw kws IH]; intros a b c d;
  [ cbn; f_equal; lia
  | cbn [score_keywords]; unfold kw_hits; cbn [filter];
    destruct (Py.contains kw text); cbn [length];
    [ rewrite incr_lemma, IH; unfold kw_hits; f_equal; lia
    | rewrite IH; reflexivity ] ].

Lemma score_informational : forall kws text a b c d,
  score_keywords "informational" kws text (mk_scores a b c d) =
  mk_scores (a + kw_hits kws text) b c d.
Proof. score_keywords_tac incr_informational. Qed.

Lemma score_commercial : forall kws text a b c d,
  score_keywords "commercial" kws text (mk_scores a b c d) =
  mk_scores a (b + kw_hits kws text) c d.
Proof. score_keywords_tac incr_commercial. Qed.

Lemma score_transactional : forall kws text a b c d,
  score_keywords "transactional" kws text (mk_scores a b c d) =
  mk_scores a b (c + kw_hits kws text) d.
Proof. score_keywords_tac incr_transactional. Qed.

Lemma score_navigational : forall kws text a b c d,
  score_keywords "navigational" kws text (mk_scores a b c d) =
  mk_scores a b c (d + kw_hits kws text).
Proof. score_keywords_tac incr_navigational. Qed.

Section Scores.

Variables k1 k2 k3 k4 : list string.
Hypothesis Hik : intent_keywords =
  [("informational", k1); ("commercial", k2); ("transactional", k3); ("navigational", k4)]%string.

Lemma score_intents_spec : forall text a b c d,
  score_intents intent_keywords text (mk_scores a b c d) =
  mk_scores (a + kw_hits k1 text) (b + kw_hits k2 text)
            (c + kw_hits k3 text) (d + kw_hits k4 text).
Proof.
  intros. rewrite Hik. cbn [score_intents].
  now rewrite score_informational, score_commercial, score_transactional, score_navigational.
Qed.

Lemma pair_hits_cons : forall r rs kws,
  pair_hits (r :: rs) kws = kw_hits kws (text_to_analyze r) + pair_hits rs kws.
Proof.
  intros r rs kws. unfold pair_hits, kw_hits. cbn [list_prod].
  rewrite filter_app, length_app. f_equal.
  induction kws as [|kw kws IH]; cbn; [reflexivity|].
  destruct (Py.contains kw (text_to_analyze r)); cbn; congruence.
Qed.

Lemma score_results_spec : forall rs a b c d,
  score_results rs (mk_scores a b c d) =
  mk_scores (a + pair_hits rs k1) (b + pair_hits rs k2)
            (c + pair_hits rs k3) (d + pair_hits rs k4).
Proof.
  induction rs as [|r rs IH]; intros a b c d.
  - cbn. unfold pair_hits. cbn. f_equal; lia.
  - cbn [score_results]. rewrite score_intents_spec, IH, !pair_hits_cons.
    f_equal; lia.
Qed.

Lemma intent_scores_of_spec : forall rs,
  intent_scores_of rs =
  mk_scores (pair_hits rs k1) (pair_hits rs k2) (pair_hits rs k3) (pair_hits rs k4).
Proof.
  intros rs. unfold intent_scores_of.
  assert (H0 : initial_scores = mk_scores 0 0 0 0) by (unfold initial_scores; rewrite Hik; reflexivity).
  now rewrite H0, score_results_spec.
Qed.

End Scores.

Lemma intent_keywords_shape : exists k1 k2 k3 k4, intent_keywords =
  [("informational", k1); ("commercial", k2); ("transactional", k3); ("navigational", k4)]%string.
Proof. do 4 eexists. reflexivity. Qed.

Lemma intent_scores_pairs : forall rs,
  intent_scores_of rs = map (fun '(i, kws) => (i, pair_hits rs kws)) intent_keywords.
Proof.
  intros rs. destruct intent_keywords_shape as (k1 & k2 & k3 & k4 & H).
  rewrite (intent_scores_of_spec k1 k2 k3 k4 H), H. reflexivity.
Qed.

(** C2: each category's score is the number of (result, pattern) pairs
    in which the pattern occurs in the result's lowered title and
    snippet; two patterns of one category found in one result count
    twice. *)
Theorem intent_scores_count_pairs : forall url_path kw rs paa,
  option_map intent_scores (analyze_search_intent url_path (PyDict (mkSerp kw rs paa))) =
  Some (map (fun '(i, kws) => (i, pair_hits rs kws)) intent_keywords).
Proof.
  intros. cbn [analyze_search_intent option_map intent_scores organic_results].
  now rewrite intent_scores_pairs.
Qed.

Example intent_scores_double_count :
  intent_scores_of [mkResult "Best phone review" "" "" 1] = mk_scores 0 2 0 0.
Proof. vm_compute. reflexivity. Qed.

Lemma max_go_spec : forall rest pre mid best,
  Forall (fun p => snd p < snd best) pre ->
  Forall (fun p => snd p <= snd best) mid ->
  exists pre' n post,
    pre ++ best :: mid ++ rest = pre' ++ (max_go best rest, n) :: post /\
    Forall (fun p => snd p < n) pre' /\ Forall (fun p => snd p <= n) post.
Proof.
  induction rest as [|[k v] r IH]; intros pre mid best Hpre Hmid.
  - exists pre, (snd best), mid. destruct best as [kb vb]; simpl.
    rewrite app_nil_r. auto.
  - cbn [max_go]. destruct (Nat.ltb_spec (snd best) v) as [Hlt|Hge].
    + destruct (IH (pre ++ best :: mid) [] (k, v)) as (pre' & n & post & Heq & H1 & H2).
      * apply Forall_app. split.
        -- eapply Forall_impl; [|exact Hpre]. simpl. intros p Hp. lia.
        -- constructor; [simpl; lia|].
           eapply Forall_impl; [|exact Hmid]. simpl. intros p Hp. lia.
      * constructor.
      * exists pre', n, post. split; [|auto].
        rewrite <- Heq. now rewrite <- app_assoc.
    + destruct (IH pre (mid ++ [(k, v)]) best) as (pre' & n & post & Heq & H1 & H2).
      * exact Hpre.
      * apply Forall_app. split; [exact Hmid|]. constructor; [simpl; lia|constructor].
      * exists pre', n, post. split; [|auto].
        rewrite <- Heq. now rewrite <- app_assoc.
Qed.

(** [max(d, key=d.get)] is the first key, in the dict's order, whose
    value is the maximum. *)
Lemma py_max_key_first_max : forall p r,
  exists pre n post,
    p :: r = pre ++ (py_max_key (p :: r), n) :: post /\
    Forall (fun q => snd q < n) pre /\ Forall (fun q => snd q <= n) post.
Proof.
  intros p r. exact (max_go_spec r [] [] p (Forall_nil _) (Forall_nil _)).
Qed.

(** C3: the dominant intent is the first category, in the order
    informational, commercial, transactional, navigational, whose score is
    the maximum; with no results all scores are 0 and the label is
    "informational". *)
Theorem dominant_intent_first_maximum : forall url_path kw rs paa,
  exists a,
    analyze_search_intent url_path (PyDict (mkSerp kw rs paa)) = Some a /\
    map fst (intent_scores a) =
      ["informational"; "commercial"; "transactional"; "navigational"]%string /\
    (exists pre n post,
       intent_scores a = pre ++ (dominant_intent a, n) :: post /\
       Forall (fun p => snd p < n) pre /\ Forall (fun p => snd p <= n) post) /\
    (rs = [] -> intent_scores a = mk_scores 0 0 0 0 /\
                dominant_intent a = "informational"%string).
Proof.
  intros url_path kw rs paa.
  eexists. split; [reflexivity|]. cbn [intent_scores dominant_intent organic_results].
  destruct intent_keywords_shape as (k1 & k2 & k3 & k4 & Hik).
  rewrite (intent_scores_of_spec k1 k2 k3 k4 Hik).
  split; [reflexivity|]. split.
  - apply py_max_key_first_max.
  - intros ->. split; reflexivity.
Qed.

(* ------------------------------------------------------------------ *)
(** ** Title and meta description *)

(** C4 (counterexample): for the keyword "seo" with intent
    "informational" and no common title words, the title is not
    "seo: Complete Guide". *)
Lemma title_suggestion_counterexample :
  _generate_title_suggestion "seo" (mkIntent "informational" [] [] [] [] []) <>
  "seo: Complete Guide"%string.
Proof. vm_compute. discriminate. Qed.

(** C4 (amended): the title leads with the intent's power word
    (informational "Ultimate", commercial "Best", transactional "Buy",
    navigational "Official", any other label "Guide").  Take the first
    three common title words, then drop those that are words of the keyword
    (compared lower-cased); later title words are never considered.  When
    none remain it reads "{P} Guide to {keyword}: Everything You Need to
    Know"; otherwise, with W1 and W2 the first two remaining words
    title-cased (W2 = "Complete" when only one remains),
    "{P} {W1} for {keyword}: {W2} Guide". *)
Theorem title_suggestion_shape : forall kw ia,
  let pw := power_word (dominant_intent ia) in
  let cw := filter (fun w => negb (existsb (String.eqb (Py.lower w))
                                           (map Py.lower (Py.split kw))))
                   (map fst (firstn 3 (common_title_words ia))) in
  pw = match Dict.get (dominant_intent ia)
               [("informational", "Ultimate"); ("commercial", "Best");
                ("transactional", "Buy"); ("navigational", "Official")]%string with
       | Some p => p
       | None => "Guide"%string
       end /\
  (cw = [] ->
   _generate_title_suggestion kw ia =
     (pw ++ " Guide to " ++ kw ++ ": Everything You Need to Know")%string) /\
  (forall w1, cw = [w1] ->
   _generate_title_suggestion kw ia =
     (pw ++ " " ++ Py.title w1 ++ " for " ++ kw ++ ": Complete Guide")%string) /\
  (forall w1 w2 rest, cw = w1 :: w2 :: rest ->
   _generate_title_suggestion kw ia =
     (pw ++ " " ++ Py.title w1 ++ " for " ++ kw ++ ": " ++ Py.title w2 ++ " Guide")%string).
Proof.
  intros kw ia pw cw. split; [|split; [|split]].
  - unfold pw, power_word. cbn [Dict.get].
    destruct (String.eqb (dominant_intent ia) "informational"); [reflexivity|].
    destruct (String.eqb (dominant_intent ia) "commercial"); [reflexivity|].
    destruct (String.eqb (dominant_intent ia) "transactional"); [reflexivity|].
    destruct (String.eqb (dominant_intent ia) "navigational"); reflexivity.
  - intros H. unfold _generate_title_suggestion. fold pw. fold cw. now rewrite H.
  - intros w1 H. unfold _generate_title_suggestion. fold pw. fold cw. rewrite H.
    reflexivity.
  - intros w1 w2 rest H. unfold _generate_title_suggestion. fold pw. fold cw. rewrite H.
    reflexivity.
Qed.

Lemma string_length_append : forall s1 s2,
  String.length (s1 ++ s2)%string = String.length s1 + String.length s2.
Proof. induction s1 as [|c s1 IH]; intros s2; simpl; [reflexivity|now rewrite IH]. Qed.

Lemma take_length : forall n s, n <= String.length s -> String.length (Py.take n s) = n.
Proof.
  unfold Py.take. induction n as [|n IH]; intros s Hn.
  - destruct s; reflexivity.
  - destruct s as [|c s]; simpl in Hn; [lia|]. simpl. f_equal. apply IH. lia.
Qed.

(** C8: the meta description is one of the intent-keyed templates, and it
    is at most 160 characters long: a longer template is cut to its first
    157 characters followed by "...". *)
Theorem meta_description_capped : forall kw ia,
  String.length (_generate_meta_description_suggestion kw ia) <= 160 /\
  (String.length (meta_template kw ia) <= 160 ->
   _generate_meta_description_suggestion kw ia = meta_template kw ia) /\
  (160 < String.length (meta_template kw ia) ->
   _generate_meta_description_suggestion kw ia =
     (Py.take 157 (meta_template kw ia) ++ "...")%string).
Proof.
  intros kw ia. unfold _generate_meta_description_suggestion.
  destruct (Nat.ltb_spec 160 (String.length (meta_template kw ia))) as [Hlt|Hle].
  - split; [|split; [intros; lia|reflexivity]].
    rewrite string_length_append, take_length by lia. simpl. lia.
  - split; [exact Hle|split; [reflexivity|intros; lia]].
Qed.

(* ------------------------------------------------------------------ *)
(** ** The FAQ section of the brief *)

(** C5 (counterexample): with six PAA questions the brief's FAQ section
    holds five of them, not the first fifteen (all six). *)
Lemma faq_section_counterexample :
  let paa := ["q1"; "q2"; "q3"; "q4"; "q5"; "q6"]%string in
  match generate_content_brief "seo" (PyDict (mkSerp "seo" [] paa))
          (PyDict (mkIntent "informational" (mk_scores 0 0 0 0) [] [] [] paa)) PyNone with
  | Some b => map fst (questions (faq b)) <> firstn 15 paa
  | None => False
  end.
Proof. vm_compute. discriminate. Qed.

(** C5 (amended): every brief has a FAQ section titled "Frequently Asked
    Questions", also when the PAA list is empty; it holds the first 5 PAA
    questions (all of them if fewer), in their order, each with the same
    placeholder answer. *)
Theorem faq_section_first_five : forall kw sd ia ha,
  exists b,
    generate_content_brief kw (PyDict sd) (PyDict ia) ha = Some b /\
    faq_h2 (faq b) = "Frequently Asked Questions"%string /\
    map fst (questions (faq b)) = firstn 5 (ia_paa_questions ia) /\
    Forall (fun qa => snd qa = faq_answer) (questions (faq b)).
Proof.
  intros kw sd ia ha. eexists. split; [reflexivity|]. cbn [faq].
  unfold _generate_faq_section.
  destruct (ia_paa_questions ia) as [|q qs]; cbn [faq_h2 questions].
  - repeat split; constructor.
  - split; [reflexivity|]. rewrite map_map. split.
    + apply map_id.
    + apply Forall_forall. intros qa Hqa. apply in_map_iff in Hqa.
      destruct Hqa as (x & <- & _). reflexivity.
Qed.

(* ------------------------------------------------------------------ *)
(** ** Missing SERP data *)

(** C10: a missing SERP result ([None] or an empty dict) makes
    [analyze_search_intent] and [extract_competitor_headings] return
    [None], the latter with the generator state untouched, and
    [generate_content_brief] returns [None] exactly when its SERP data or
    its intent analysis is missing. *)
Theorem missing_serp_data_gives_none : forall url_path net kw s ia ha st,
  analyze_search_intent url_path PyNone = None /\
  analyze_search_intent url_path PyEmptyDict = None /\
  extract_competitor_headings net PyNone st = (None, st) /\
  extract_competitor_headings net PyEmptyDict st = (None, st) /\
  (generate_content_brief kw s ia ha = None <->
   truthy s = false \/ truthy ia = false).
Proof.
  intros. repeat split.
  - destruct s, ia; cbn; intros H; try discriminate; auto.
  - destruct s, ia; cbn; intros [H|H]; try discriminate; reflexivity.
Qed.

(* ------------------------------------------------------------------ *)
(** ** Per-page failures *)

Lemma dict_get_set : forall {V} (u k : string) (v : V) d,
  Dict.get u (Dict.set k v d) = if String.eqb u k then Some v else Dict.get u d.
Proof.
  intros V u k v d. induction d as [|[k' v'] d IH]; cbn.
  - destruct (String.eqb u k); reflexivity.
  - destruct (String.eqb_spec k k') as [->|Hne]; cbn.
    + destruct (String.eqb u k'); reflexivity.
    + rewrite IH. destruct (String.eqb_spec u k') as [->|Hne']; [|reflexivity].
      destruct (String.eqb_spec k' k); [congruence|reflexivity].
Qed.

Lemma requested_app : forall l1 l2, requested (l1 ++ l2) = requested l1 ++ requested l2.
Proof. intros. unfold requested. apply flat_map_app. Qed.

Section PerPage.

Variable net : string -> http_response.

Lemma extract_headings_from_url_run : forall u st,
  fst (extract_headings_from_url net u st) = page_headings (net u) /\
  competitor_headings (snd (extract_headings_from_url net u st)) = competitor_headings st /\
  requested (log (snd (extract_headings_from_url net u st))) = requested (log st) ++ [u].
Proof.
  intros u st. unfold extract_headings_from_url, page_headings, bind, emit, ret.
  cbn. destruct (fetch_and_parse (net u)); cbn;
    rewrite ?requested_app; cbn; rewrite ?app_nil_r, ?requested_app; cbn;
    rewrite ?app_nil_r; auto.
Qed.

Lemma extract_loop_run : forall rs acc st,
  let '(ch, st') := extract_loop net rs acc st in
  requested (log st') = requested (log st) ++ map url rs /\
  competitor_headings st' = competitor_headings st /\
  (forall u, In u (map url rs) -> Dict.get u ch = Some (page_headings (net u))) /\
  (forall u, ~ In u (map url rs) -> Dict.get u ch = Dict.get u acc).
Proof.
  induction rs as [|r rs IH]; intros acc st; cbn.
  - rewrite app_nil_r. repeat split; auto. intros u [].
  - unfold bind at 1. destruct (extract_headings_from_url_run (url r) st) as (H1 & H2 & H3).
    destruct (extract_headings_from_url net (url r) st) as [hs st1] eqn:E1. cbn in H1, H2, H3.
    unfold bind, emit. cbn.
    set (st2 := mkGen (competitor_headings st1) (log st1 ++ [Sleep])).
    specialize (IH (Dict.set (url r) hs acc) st2).
    destruct (extract_loop net rs (Dict.set (url r) hs acc) st2) as [ch st'] eqn:E2.
    destruct IH as (R1 & R2 & R3 & R4). repeat split.
    + rewrite R1. unfold st2. cbn. rewrite requested_app, H3. cbn.
      now rewrite app_nil_r, <- app_assoc.
    + rewrite R2. unfold st2. cbn. exact H2.
    + intros u [Hu|Hu].
      * destruct (in_dec string_dec u (map url rs)) as [Hin|Hnin]; [now apply R3|].
        rewrite R4 by exact Hnin. rewrite dict_get_set, <- Hu, String.eqb_refl.
        now rewrite H1.
      * now apply R3.
    + intros u Hu. rewrite R4 by tauto. rewrite dict_get_set.
      destruct (String.eqb_spec u (url r)) as [->|]; [tauto|reflexivity].
Qed.

End PerPage.

(** C9: a page whose fetch or parse raises contributes the empty heading
    dict and a warning, nothing is raised to the caller, every page of the
    SERP is still requested in order, and every URL ends up with the
    headings of its own page. *)
Theorem page_failure_isolated : forall net d st,
  (forall u st0, page_fails (net u) = true ->
     fst (extract_headings_from_url net u st0) = empty_headings /\
     In (Warning u) (log (snd (extract_headings_from_url net u st0)))) /\
  exists ch,
    fst (extract_competitor_headings net (PyDict d) st) = Some ch /\
    competitor_headings (snd (extract_competitor_headings net (PyDict d) st)) = ch /\
    requested (log (snd (extract_competitor_headings net (PyDict d) st))) =
      requested (log st) ++ map url (organic_results d) /\
    (forall u, In u (map url (organic_results d)) ->
       Dict.get u ch = Some (page_headings (net u)) /\
       (page_fails (net u) = true -> Dict.get u ch = Some empty_headings)).
Proof.
  intros net d st. split.
  - intros u st0 Hf. unfold page_fails in Hf.
    unfold extract_headings_from_url, bind, emit, ret. cbn.
    destruct (fetch_and_parse (net u)); [|discriminate]. cbn.
    split; [reflexivity|]. apply in_or_app. right. left. reflexivity.
  - pose proof (extract_loop_run net (organic_results d) [] st) as H.
    unfold extract_competitor_headings, bind, set_competitor_headings, ret.
    destruct (extract_loop net (organic_results d) [] st) as [ch st'].
    destruct H as (R1 & R2 & R3 & R4). cbn.
    exists ch. split; [reflexivity|]. split; [reflexivity|]. split; [exact R1|].
    intros u Hu. split; [now apply R3|].
    intros Hf. rewrite (R3 u Hu). unfold page_headings, page_fails in *.
    destruct (fetch_and_parse (net u)); [reflexivity|discriminate].
Qed.

(* ------------------------------------------------------------------ *)
(** ** Heading clusters *)

Module ClusterFacts.
Import Cluster.

Lemma common_prefix_le : forall a b,
  common_prefix a b <= length a /\ common_prefix a b <= length b.
Proof.
  induction a as [|x a IH]; intros [|y b]; cbn; try lia.
  destruct (Ascii.eqb x y); [|lia]. specialize (IH b). lia.
Qed.

Lemma scan_b_fits : forall la lb a_i i b_j j best,
  i + length a_i = la -> j + length b_j = lb ->
  fst (fst best) + snd best <= la /\ snd (fst best) + snd best <= lb ->
  let r := scan_b a_i i j b_j best in
  fst (fst r) + snd r <= la /\ snd (fst r) + snd r <= lb.
Proof.
  intros la lb a_i i b_j. revert la lb.
  induction b_j as [|y b' IH]; intros la lb j best Ha Hb Hbest; cbn [scan_b]; [exact Hbest|].
  destruct best as [[bi bj] kb]. cbn in Hb.
  apply IH; [exact Ha|lia|].
  destruct (kb <? common_prefix a_i (y :: b')); [|exact Hbest].
  destruct (common_prefix_le a_i (y :: b')) as [H1 H2]. cbn in *. lia.
Qed.

Lemma scan_a_fits : forall la b a_i i best,
  i + length a_i = la ->
  fst (fst best) + snd best <= la /\ snd (fst best) + snd best <= length b ->
  let r := scan_a a_i i b best in
  fst (fst r) + snd r <= la /\ snd (fst r) + snd r <= length b.
Proof.
  intros la b. induction a_i as [|x a' IH]; intros i best Ha Hbest; cbn; [exact Hbest|].
  cbn in Ha. apply IH; [lia|].
  apply scan_b_fits; [cbn; lia|reflexivity|exact Hbest].
Qed.

Lemma longest_match_fits : forall a b,
  let '(i, j, k) := longest_match a b in i + k <= length a /\ j + k <= length b.
Proof.
  intros a b. pose proof (scan_a_fits (length a) b a 0 (0, 0, 0) eq_refl) as H.
  cbn in H. unfold longest_match.
  destruct (scan_a a 0 b (0, 0, 0)) as [[i j] k]. apply H. lia.
Qed.

Lemma matches_le : forall fuel a b,
  matches fuel a b <= length a /\ matches fuel a b <= length b.
Proof.
  induction fuel as [|f IH]; intros a b; cbn; [lia|].
  pose proof (longest_match_fits a b) as Hfit.
  destruct (longest_match a b) as [[i j] k].
  destruct (k =? 0); [lia|].
  destruct (IH (firstn i a) (firstn j b)) as [L1 L2].
  destruct (IH (skipn (i + k) a) (skipn (j + k) b)) as [R1 R2].
  rewrite length_firstn in L1, L2. rewrite length_skipn in R1, R2. lia.
Qed.

Lemma ratio_bounds : forall a b, (0 <= ratio a b <= 1)%Q.
Proof.
  intros a b. unfold ratio.
  destruct (Nat.eqb_spec (length a + length b) 0) as [H0|H0].
  - split; discriminate.
  - pose proof (matches_le (length a) a b) as [Ha Hb].
    unfold matching_chars. unfold Qle; cbn [Qnum Qden].
    assert (Hpos : Z.pos (Pos.of_nat (length a + length b)) = Z.of_nat (length a + length b)).
    { rewrite <- positive_nat_Z. f_equal. now apply Nat2Pos.id. }
    split; rewrite ?Hpos; lia.
Qed.

Lemma similarity_bounds : forall h r, (0 <= similarity h r <= 1)%Q.
Proof. intros. apply ratio_bounds. Qed.

Lemma assign_length : forall t h cs,
  length cs <= length (assign t h cs) <= S (length cs) /\ assign t h cs <> [].
Proof.
  intros t h cs. induction cs as [|c cs IH]; cbn.
  - split; [lia|discriminate].
  - destruct (Qle_bool t (similarity h (representative c))); cbn;
      split; try discriminate; lia.
Qed.

Lemma assign_low : forall t h cs, (t <= 0)%Q -> cs <> [] ->
  length (assign t h cs) = length cs.
Proof.
  intros t h [|c cs] Ht Hne; [congruence|]. cbn.
  destruct (similarity_bounds h (representative c)) as [H0 _].
  replace (Qle_bool t (similarity h (representative c))) with true; [reflexivity|].
  symmetry. apply Qle_bool_iff. eapply Qle_trans; eassumption.
Qed.

Lemma assign_high : forall t h cs, (1 < t)%Q ->
  length (assign t h cs) = S (length cs).
Proof.
  intros t h cs Ht. induction cs as [|c cs IH]; cbn; [reflexivity|].
  destruct (similarity_bounds h (representative c)) as [_ H1].
  destruct (Qle_bool t (similarity h (representative c))) eqn:E.
  - apply Qle_bool_iff in E. exfalso. apply (Qlt_not_le 1 t Ht).
    eapply Qle_trans; eassumption.
  - cbn. now rewrite IH.
Qed.

Lemma fold_assign_bounds : forall t hs cs,
  let r := fold_left (fun cs h => assign t h cs) hs cs in
  length cs <= length r <= length cs + length hs.
Proof.
  intros t hs. induction hs as [|h hs IH]; intros cs; cbn; [lia|].
  destruct (assign_length t h cs) as [Hl _]. specialize (IH (assign t h cs)). cbn in IH. lia.
Qed.

Lemma fold_assign_low : forall t hs cs, (t <= 0)%Q -> cs <> [] ->
  length (fold_left (fun cs h => assign t h cs) hs cs) = length cs.
Proof.
  intros t hs. induction hs as [|h hs IH]; intros cs Ht Hne; cbn; [reflexivity|].
  rewrite IH; [now apply assign_low|exact Ht|apply assign_length].
Qed.

Lemma fold_assign_high : forall t hs cs, (1 < t)%Q ->
  length (fold_left (fun cs h => assign t h cs) hs cs) = length cs + length hs.
Proof.
  intros t hs. induction hs as [|h hs IH]; intros cs Ht; cbn; [lia|].
  rewrite IH by exact Ht. rewrite assign_high by exact Ht. lia.
Qed.

End ClusterFacts.

(** C6 (counterexample): raising the threshold from 1/2 to 5/8 lowers
    the number of clusters of ["bb"; "ab"; "aaba"; "a"] from 3 to 2:
    at 1/2 "ab" joins "bb" and "aaba" and "a" open clusters, at 5/8 "ab"
    opens a cluster and both later headings join it. *)
Lemma cluster_count_not_monotone :
  ~ (forall hs t1 t2, (t1 <= t2)%Q ->
       length (Cluster.cluster_headings hs t1) <= length (Cluster.cluster_headings hs t2)).
Proof.
  intros H.
  assert (Hle : (1 # 2 <= 5 # 8)%Q) by (unfold Qle; cbn; lia).
  specialize (H ["bb"; "ab"; "aaba"; "a"]%string _ _ Hle).
  apply Nat.leb_le in H. vm_compute in H. discriminate.
Qed.

(** C6 (amended): the number of clusters is not monotone in the threshold,
    but it always lies between its values at the extremes: for a
    threshold at most 0 every heading joins the first cluster (one cluster
    for a non-empty input), for a threshold above 1 every heading opens
    its own cluster, and in between the count is at least 1 for a
    non-empty input and at most the number of headings. *)
Theorem cluster_count_between_extremes : forall hs t,
  ((t <= 0)%Q -> length (Cluster.cluster_headings hs t) = Nat.min 1 (length hs)) /\
  ((1 < t)%Q -> length (Cluster.cluster_headings hs t) = length hs) /\
  Nat.min 1 (length hs) <= length (Cluster.cluster_headings hs t) <= length hs.
Proof.
  intros hs t. unfold Cluster.cluster_headings, Cluster.clusters. rewrite length_map.
  destruct hs as [|h hs]; [cbn; repeat split; intros; lia|].
  cbn [fold_left length]. cbn [Cluster.assign].
  pose proof (ClusterFacts.fold_assign_bounds t hs [Cluster.mkCluster h [h]]) as Hb.
  cbn in Hb. split; [|split].
  - intros Ht. rewrite ClusterFacts.fold_assign_low by (exact Ht || discriminate).
    reflexivity.
  - intros Ht. rewrite ClusterFacts.fold_assign_high by exact Ht. reflexivity.
  - lia.
Qed.

(* ------------------------------------------------------------------ *)
(** ** Counting words: [Counter] and [most_common] *)

Lemma counter_add_get : forall w x c,
  Dict.get w (counter_add x c) =
  if String.eqb w x then Some (S (get_or 0 (Dict.get w c))) else Dict.get w c.
Proof.
  intros w x c. induction c as [|[k v] c IH]; cbn.
  - destruct (String.eqb w x); reflexivity.
  - destruct (String.eqb_spec x k) as [->|Hxk]; cbn.
    + destruct (String.eqb w k); reflexivity.
    + rewrite IH. destruct (String.eqb_spec w k) as [->|Hwk]; [|reflexivity].
      destruct (String.eqb_spec k x); [congruence|reflexivity].
Qed.

Lemma counter_add_keys : forall x c,
  NoDup (map fst c) -> NoDup (map fst (counter_add x c)) /\
  (forall k, In k (map fst (counter_add x c)) <-> k = x \/ In k (map fst c)).
Proof.
  intros x c. induction c as [|[k v] c IH]; intros Hnd; cbn.
  - split; [repeat constructor; intros []|]. intros k; split; [intros [->|[]]; auto|intros [->|[]]; auto].
  - inversion Hnd as [|? ? Hk Hnd']; subst.
    destruct (String.eqb_spec x k) as [->|Hxk]; cbn.
    + split; [exact Hnd|]. intros k'. split; [tauto|intros [->|H]; auto].
    + destruct (IH Hnd') as [Hnd2 Hin]. split.
      * constructor; [|exact Hnd2]. rewrite Hin. intros [->|H]; [congruence|contradiction].
      * intros k'. rewrite Hin. tauto.
Qed.

Lemma counter_fold_get : forall ws c w,
  Dict.get w (fold_left (fun c w => counter_add w c) ws c) =
  match Dict.get w c with
  | Some n => Some (n + count_occ string_dec ws w)
  | None => if count_occ string_dec ws w =? 0 then None else Some (count_occ string_dec ws w)
  end.
Proof.
  induction ws as [|x ws IH]; intros c w; cbn.
  - destruct (Dict.get w c); [now rewrite Nat.add_0_r|reflexivity].
  - rewrite IH, counter_add_get. destruct (String.eqb_spec w x) as [->|Hwx].
    + destruct (string_dec x x) as [_|]; [|congruence].
      destruct (Dict.get x c); cbn; f_equal; lia.
    + destruct (string_dec x w) as [->|]; [congruence|]. reflexivity.
Qed.

Lemma counter_fold_keys : forall ws c,
  NoDup (map fst c) ->
  NoDup (map fst (fold_left (fun c w => counter_add w c) ws c)).
Proof.
  induction ws as [|x ws IH]; intros c Hnd; cbn; [exact Hnd|].
  apply IH. now apply counter_add_keys.
Qed.

Lemma dict_get_in : forall {V} (d : list (string * V)) k v,
  NoDup (map fst d) -> (Dict.get k d = Some v <-> In (k, v) d).
Proof.
  intros V d k v. induction d as [|[k' v'] d IH]; intros Hnd; cbn; [split; [discriminate|intros []]|].
  inversion Hnd as [|? ? Hk Hnd']; subst.
  destruct (String.eqb_spec k k') as [->|Hne]; split.
  - intros H. injection H as <-. now left.
  - intros [H|H]; [now injection H as <-|].
    exfalso. apply Hk. apply in_map_iff. now exists (k', v).
  - intros H. right. now apply IH.
  - intros [H|H]; [injection H; congruence|]. now apply IH.
Qed.

Lemma counter_spec : forall ws,
  NoDup (map fst (counter ws)) /\
  (forall w n, In (w, n) (counter ws) <-> In w ws /\ n = count_occ string_dec ws w).
Proof.
  intros ws. assert (Hnd : NoDup (map fst (counter ws))) by (apply counter_fold_keys; constructor).
  split; [exact Hnd|]. intros w n.
  rewrite <- (dict_get_in _ _ _ Hnd). unfold counter. rewrite counter_fold_get. cbn.
  destruct (Nat.eqb_spec (count_occ string_dec ws w) 0) as [H0|H0].
  - split; [discriminate|]. intros [Hin _]. apply (count_occ_not_In string_dec) in H0. contradiction.
  - split.
    + intros H. injection H as <-. split; [|reflexivity].
      apply (count_occ_In string_dec). lia.
    + intros [_ ->]. reflexivity.
Qed.

Lemma insert_desc_perm : forall p l, Permutation (insert_desc p l) (p :: l).
Proof.
  intros p l. induction l as [|q l IH]; cbn [insert_desc]; [reflexivity|].
  destruct (snd q <? snd p); [reflexivity|].
  rewrite IH. apply perm_swap.
Qed.

Lemma insert_desc_sorted : forall p l, Sorted by_count_desc l -> Sorted by_count_desc (insert_desc p l).
Proof.
  intros p l Hs. induction Hs as [|q l Hs IH Hhd]; cbn [insert_desc].
  - repeat constructor.
  - destruct (Nat.ltb_spec (snd q) (snd p)) as [Hlt|Hge].
    + constructor; [constructor; auto|]. constructor. unfold by_count_desc. lia.
    + constructor; [exact IH|].
      destruct l as [|r l]; cbn [insert_desc].
      * constructor. unfold by_count_desc. lia.
      * inversion Hhd as [|? ? Hqr]; subst.
        destruct (snd r <? snd p); constructor; unfold by_count_desc in *; lia.
Qed.

Lemma sort_desc_spec : forall c acc,
  Sorted by_count_desc acc ->
  let s := fold_left (fun acc p => insert_desc p acc) c acc in
  Permutation s (c ++ acc) /\ Sorted by_count_desc s.
Proof.
  induction c as [|p c IH]; intros acc Hs; cbn; [split; [reflexivity|exact Hs]|].
  destruct (IH (insert_desc p acc) (insert_desc_sorted p acc Hs)) as [Hp Hs'].
  split; [|exact Hs'].
  rewrite Hp, insert_desc_perm. apply Permutation_sym, Permutation_middle.
Qed.

Lemma strongly_sorted_app_inv : forall {A} (R : A -> A -> Prop) l1 l2,
  StronglySorted R (l1 ++ l2) ->
  StronglySorted R l1 /\ Forall (fun y => Forall (fun x => R x y) l1) l2.
Proof.
  intros A R l1 l2. induction l1 as [|x l1 IH]; intros H; cbn in *.
  - split; [constructor|]. apply Forall_forall. intros; constructor.
  - inversion H as [|? ? Hs Hf]; subst. destruct (IH Hs) as [H1 H2].
    apply Forall_app in Hf as [Hf1 Hf2]. split; [constructor; auto|].
    apply Forall_forall. intros y Hy. constructor.
    + rewrite Forall_forall in Hf2. now apply Hf2.
    + rewrite Forall_forall in H2. now apply H2.
Qed.

Lemma most_common_spec : forall n c,
  let m := most_common n c in
  exists rest,
    Permutation c (m ++ rest) /\
    length m = Nat.min n (length c) /\
    StronglySorted by_count_desc m /\
    Forall (fun q => Forall (fun p => snd q <= snd p) m) rest.
Proof.
  intros n c m. unfold m, most_common.
  destruct (sort_desc_spec c [] (Sorted_nil _)) as [Hp Hs].
  set (s := fold_left (fun acc p => insert_desc p acc) c []) in *.
  rewrite app_nil_r in Hp.
  apply Sorted_StronglySorted in Hs; [|intros x y z; unfold by_count_desc; lia].
  rewrite <- (firstn_skipn n s) in Hs.
  destruct (strongly_sorted_app_inv _ _ _ Hs) as [H1 H2].
  exists (skipn n s). split; [|split; [|split]].
  - rewrite firstn_skipn. now symmetry.
  - rewrite length_firstn, (Permutation_length Hp). reflexivity.
  - exact H1.
  - exact H2.
Qed.

(** X1: [Counter(ws)] has each word of [ws] once, with its number of
    occurrences, and nothing else. *)
Theorem counter_counts : forall ws,
  NoDup (map fst (counter ws)) /\
  (forall w n, In (w, n) (counter ws) <-> In w ws /\ n = count_occ string_dec ws w).
Proof. exact counter_spec. Qed.

(** X2: [most_common(n)] returns [min n (len c)] entries of [c] in
    non-increasing order of count, and no entry left out has a larger
    count than any entry returned. *)
Theorem most_common_top_n : forall n c,
  let m := most_common n c in
  exists rest,
    Permutation c (m ++ rest) /\
    length m = Nat.min n (length c) /\
    StronglySorted by_count_desc m /\
    Forall (fun q => Forall (fun p => snd q <= snd p) m) rest.
Proof. exact most_common_spec. Qed.

Lemma most_common_counter : forall n ws,
  length (most_common n (counter ws)) <= n /\
  NoDup (map fst (most_common n (counter ws))) /\
  (forall w k, In (w, k) (most_common n (counter ws)) ->
     In w ws /\ k = count_occ string_dec ws w).
Proof.
  intros n ws. destruct (most_common_spec n (counter ws)) as (rest & Hp & Hl & _ & _).
  destruct (counter_spec ws) as [Hnd Hin].
  split; [|split].
  - rewrite Hl. lia.
  - apply (Permutation_map fst) in Hp. apply (Permutation_NoDup Hp) in Hnd.
    rewrite map_app in Hnd. exact (NoDup_app_remove_r _ _ Hnd).
  - intros w k Hwk. apply Hin. apply (Permutation_in _ (Permutation_sym Hp)).
    apply in_or_app. now left.
Qed.

Lemma split_char_go_no_sep : forall sep s cur x,
  ~ In sep cur -> In x (split_char_go sep s cur) -> ~ In sep (list_ascii_of_string x).
Proof.
  intros sep s. induction s as [|c s IH]; intros cur x Hcur Hx; cbn in Hx.
  - destruct Hx as [<-|[]]. rewrite list_ascii_of_string_of_list_ascii.
    now rewrite <- in_rev.
  - destruct (Ascii.eqb_spec c sep) as [->|Hne].
    + destruct Hx as [<-|Hx].
      * rewrite list_ascii_of_string_of_list_ascii. now rewrite <- in_rev.
      * apply (IH [] x); [intros []|exact Hx].
    + apply (IH (c :: cur) x); [|exact Hx]. intros [H|H]; [congruence|contradiction].
Qed.

Lemma url_patterns_segments : forall url_path rs p,
  In p (url_patterns url_path rs) ->
  p <> EmptyString /\ ~ In "/"%char (list_ascii_of_string p).
Proof.
  intros url_path rs p Hp. unfold url_patterns in Hp.
  apply in_flat_map in Hp. destruct Hp as (r & _ & Hp).
  apply filter_In in Hp. destruct Hp as [Hp Hne]. split.
  - intros ->. discriminate.
  - exact (split_char_go_no_sep _ _ [] p (fun H => H) Hp).
Qed.

(** X3: the SERP patterns of the intent analysis: at most 10 common title
    words and 10 common snippet words, each a word of the lower-cased
    titles (snippets) listed once with its number of occurrences; at most
    5 URL patterns, each one of the non-empty path segments of the result
    URLs (so without "/") listed once with its number of occurrences; the PAA questions are passed through. *)
Theorem serp_patterns_counts : forall url_path kw rs paa,
  exists a,
    analyze_search_intent url_path (PyDict (mkSerp kw rs paa)) = Some a /\
    (let tw := Py.find_words (Py.lower (Py.join " " (map title rs))) in
     length (common_title_words a) <= 10 /\ NoDup (map fst (common_title_words a)) /\
     forall w k, In (w, k) (common_title_words a) -> In w tw /\ k = count_occ string_dec tw w) /\
    (let dw := Py.find_words (Py.lower (Py.join " " (map meta_description rs))) in
     length (common_description_words a) <= 10 /\ NoDup (map fst (common_description_words a)) /\
     forall w k, In (w, k) (common_description_words a) -> In w dw /\ k = count_occ string_dec dw w) /\
    (let up := url_patterns url_path rs in
     length (common_url_patterns a) <= 5 /\ NoDup (map fst (common_url_patterns a)) /\
     forall p k, In (p, k) (common_url_patterns a) ->
       In p up /\ p <> EmptyString /\ ~ In "/"%char (list_ascii_of_string p) /\
       k = count_occ string_dec up p) /\
    ia_paa_questions a = paa.
Proof.
  intros url_path kw rs paa. eexists. split; [reflexivity|].
  cbn [common_title_words common_description_words common_url_patterns ia_paa_questions
       organic_results paa_questions].
  split; [|split; [|split]].
  - apply most_common_counter.
  - apply most_common_counter.
  - destruct (most_common_counter 5 (url_patterns url_path rs)) as (H1 & H2 & H3).
    split; [exact H1|split; [exact H2|]].
    intros p k Hpk. destruct (H3 p k Hpk) as [Hin Hk].
    destruct (url_patterns_segments url_path rs p Hin). auto 6.
  - reflexivity.
Qed.

(* ------------------------------------------------------------------ *)
(** ** Merging the competitors' headings *)

Lemma dict_get_app : forall {V} k (d1 d2 : list (string * V)),
  Dict.get k (d1 ++ d2) = match Dict.get k d1 with Some v => Some v | None => Dict.get k d2 end.
Proof.
  intros V k d1 d2. induction d1 as [|[k' v'] d1 IH]; cbn; [reflexivity|].
  destruct (String.eqb k k'); [reflexivity|exact IH].
Qed.

Lemma dict_get_map_keys : forall {V} (g : string -> V) ls l,
  In l ls -> Dict.get l (map (fun level => (level, g level)) ls) = Some (g l).
Proof.
  intros V g ls l. induction ls as [|a ls IH]; cbn; [tauto|].
  intros [->|H]; [now rewrite String.eqb_refl|].
  destruct (String.eqb_spec l a) as [->|]; [reflexivity|exact (IH H)].
Qed.

Section NonEmptyLevels.

Variable X : Type.
Variable f : list string -> X.
Variable keep : string * list string -> list (string * X).
Hypothesis keep_spec : forall level ts,
  keep (level, ts) = match ts with [] => [] | _ :: _ => [(level, f ts)] end.

Lemma dict_get_nonempty_absent : forall (g : string -> list string) ls l,
  ~ In l ls -> Dict.get l (flat_map keep (map (fun level => (level, g level)) ls)) = None.
Proof.
  intros g ls l. induction ls as [|a ls IH]; cbn; [reflexivity|].
  intros Hn. rewrite dict_get_app, keep_spec.
  destruct (g a) as [|t ts]; cbn; [apply IH; tauto|].
  destruct (String.eqb_spec l a) as [->|]; [tauto|]. apply IH; tauto.
Qed.

Lemma dict_get_nonempty : forall (g : string -> list string) ls l,
  In l ls ->
  Dict.get l (flat_map keep (map (fun level => (level, g level)) ls)) =
  match g l with [] => None | _ :: _ => Some (f (g l)) end.
Proof.
  intros g ls l. induction ls as [|a ls IH]; cbn; [tauto|].
  intros Hin. rewrite dict_get_app, keep_spec.
  destruct (String.eqb_spec l a) as [->|Hne].
  - destruct (in_dec string_dec a ls) as [H|H].
    + destruct (g a) as [|t ts] eqn:E; cbn; [|now rewrite String.eqb_refl].
      rewrite (IH H). now rewrite ?E.
    + destruct (g a) as [|t ts] eqn:E; cbn; [|now rewrite String.eqb_refl].
      now apply dict_get_nonempty_absent.
  - destruct Hin as [->|Hin]; [congruence|].
    destruct (g a); cbn; [now apply IH|].
    destruct (String.eqb_spec l a); [congruence|]. now apply IH.
Qed.

End NonEmptyLevels.

(** X4: [analyze_competitor_headings] returns [None] exactly when no page
    was fetched; otherwise [all_headings[level]] holds the headings of that
    level of every page, page after page, and [common_headings] has an
    entry for a level exactly when that list is non-empty: its 10 most
    common headings with their counts. *)
Theorem competitor_headings_merged : forall ch,
  (analyze_competitor_headings ch = None <-> ch = []) /\
  forall a, analyze_competitor_headings ch = Some a ->
  forall l, In l heading_levels ->
    let ts := flat_map (fun '(_, hs) => level_of l hs) ch in
    Dict.get l (all_headings a) = Some ts /\
    Dict.get l (common_headings a) =
      match ts with [] => None | _ => Some (most_common 10 (counter ts)) end.
Proof.
  intros ch. split.
  - destruct ch; cbn; split; congruence.
  - intros a Ha l Hl. destruct ch as [|p ch]; [discriminate|].
    set (G := fun level => flat_map (fun '(_, hs) => level_of level hs) (p :: ch)).
    set (K := (fun '(level, ts) =>
                 match ts with
                 | [] => []
                 | _ => [(level, most_common 10 (counter ts))]
                 end) : string * list string -> list (string * list (string * nat))).
    assert (a = mkHeadingsAnalysis (map (fun level => (level, G level)) heading_levels)
                  (flat_map K (map (fun level => (level, G level)) heading_levels))) as ->.
    { enough (Some a = Some (mkHeadingsAnalysis (map (fun level => (level, G level)) heading_levels)
                  (flat_map K (map (fun level => (level, G level)) heading_levels)))) by congruence.
      rewrite <- Ha. reflexivity. }
    split.
    + exact (dict_get_map_keys G heading_levels l Hl).
    + apply (dict_get_nonempty _ (fun ts => most_common 10 (counter ts)) K); [|exact Hl].
      intros level [|t ts]; reflexivity.
Qed.

(* ------------------------------------------------------------------ *)
(** ** The content outline *)

Lemma existsb_h2_false : forall t secs,
  existsb (fun s => String.eqb (h2 s) t) secs = false -> ~ In t (map h2 secs).
Proof.
  intros t secs H Hin. apply in_map_iff in Hin. destruct Hin as (s & Hs & Hin).
  assert (existsb (fun s => String.eqb (h2 s) t) secs = true) as Ht
    by (apply existsb_exists; exists s; split; [exact Hin|now apply String.eqb_eq]).
  congruence.
Qed.

Lemma existsb_h2_true : forall t secs,
  existsb (fun s => String.eqb (h2 s) t) secs = true -> In t (map h2 secs).
Proof.
  intros t secs H. apply existsb_exists in H. destruct H as (s & Hin & Hs).
  apply String.eqb_eq in Hs. subst t. now apply in_map.
Qed.

Lemma add_common_h2s_spec : forall kw h2s secs,
  exists added,
    add_common_h2s kw h2s secs =
      secs ++ map (fun t => plain t ("Cover this important aspect of " ++ kw)%string) added /\
    NoDup added /\ length added <= length h2s /\
    (forall t, In t added -> In t h2s /\ ~ In t (map h2 secs)) /\
    (forall t, In t h2s -> In t (map h2 secs) \/ In t added).
Proof.
  intros kw h2s. induction h2s as [|t rest IH]; intros secs; cbn [add_common_h2s length In].
  - exists []. rewrite app_nil_r. repeat split; try constructor; cbn; tauto.
  - destruct (existsb (fun s => String.eqb (h2 s) t) secs) eqn:E.
    + destruct (IH secs) as (added & Heq & Hnd & Hlen & Hin & Hcov).
      exists added. split; [exact Heq|]. split; [exact Hnd|]. split; [lia|]. split.
      * intros t' Ht'. destruct (Hin t' Ht'). tauto.
      * intros t' [<-|Ht']; [left; now apply existsb_h2_true|now apply Hcov].
    + set (p := plain t ("Cover this important aspect of " ++ kw)%string).
      destruct (IH (secs ++ [p])) as (added & Heq & Hnd & Hlen & Hin & Hcov).
      pose proof (existsb_h2_false t secs E) as Hnt.
      exists (t :: added). split; [|split; [|split; [|split]]].
      * rewrite Heq, <- app_assoc. reflexivity.
      * constructor; [|exact Hnd]. intros Ht. destruct (Hin t Ht) as [_ Hn].
        apply Hn. rewrite map_app. apply in_or_app. right. now left.
      * cbn. lia.
      * intros t' [<-|Ht']; [split; [now left|exact Hnt]|].
        destruct (Hin t' Ht') as [H1 H2]. split; [now right|].
        intros H3. apply H2. rewrite map_app. apply in_or_app. now left.
      * intros t' [<-|Ht']; [right; now left|].
        destruct (Hcov t' Ht') as [H|H]; [|right; now right].
        rewrite map_app in H. apply in_app_or in H. destruct H as [H|[H|[]]]; [now left|].
        right. left. exact H.
Qed.

Lemma common_h2s_of_length : forall ha, length (common_h2s_of ha) <= 5.
Proof.
  intros [| |a]; unfold common_h2s_of; try (cbn; lia).
  destruct (Dict.get "h2" (common_headings a)) as [l|]; [|cbn; lia].
  rewrite length_map. apply firstn_le_length.
Qed.

Lemma outline_from_parts : forall kw ha intro body closing,
  length body = 3 ->
  exists added,
    map h2 (app (add_common_h2s kw (common_h2s_of ha) (intro :: body)) [closing]) =
      (h2 intro :: map h2 body) ++ added ++ [h2 closing] /\
    NoDup added /\
    (forall t, In t added -> In t (common_h2s_of ha) /\ ~ In t (h2 intro :: map h2 body)) /\
    (forall t, In t (common_h2s_of ha) -> In t (h2 intro :: map h2 body) \/ In t added) /\
    5 <= length (app (add_common_h2s kw (common_h2s_of ha) (intro :: body)) [closing]) <= 10.
Proof.
  intros kw ha intro body closing Hb.
  destruct (add_common_h2s_spec kw (common_h2s_of ha) (intro :: body))
    as (added & Heq & Hnd & Hlen & Hin & Hcov).
  pose proof (common_h2s_of_length ha).
  exists added. rewrite Heq. split; [|split; [exact Hnd|split; [exact Hin|split; [exact Hcov|]]]].
  - rewrite !map_app, map_map. cbn. rewrite map_id. now rewrite <- app_assoc.
  - rewrite !length_app, length_map. cbn. lia.
Qed.

(** X5: the outline's H1 is "The Ultimate Guide to <keyword>"; its H2s are
    the introduction, the three sections of the dominant intent (for
    "informational": "What Is <keyword>?", "Benefits of <keyword>",
    "Common Challenges with <keyword>"; likewise for the others), then the
    common competitor H2s not already present (each once), then a closing
    section chosen by the intent; every common competitor H2 is among the
    H2s, and the outline has between 5 and 10 sections. *)
Theorem content_outline_sections : forall kw ia ha,
  let o := _generate_content_outline kw ia ha in
  let d := dominant_intent ia in
  let fixed :=
    (if String.eqb d "informational" then
       ["What Is " ++ kw ++ "?"; "Benefits of " ++ kw; "Common Challenges with " ++ kw]
     else if String.eqb d "commercial" then
       ["Top " ++ kw ++ " Options"; "Comparison of " ++ kw ++ " Features"; "Pros and Cons"]
     else if String.eqb d "transactional" then
       ["Where to Buy " ++ kw; "Current Deals and Discounts"; "Price Comparison"]
     else
       ["How to Access " ++ kw; "Account Setup"; "Troubleshooting Access Issues"])%string in
  let closing :=
    (if String.eqb d "informational" then "Conclusion"
     else if String.eqb d "commercial" then "Final Recommendation"
     else if String.eqb d "transactional" then "Best Value for Money"
     else "Getting Started")%string in
  outline_h1 o = ("The Ultimate Guide to " ++ kw)%string /\
  exists added,
    map h2 (sections o) = (("Introduction to " ++ kw)%string :: fixed) ++ added ++ [closing] /\
    NoDup added /\
    (forall t, In t added ->
       In t (common_h2s_of ha) /\ ~ In t (("Introduction to " ++ kw)%string :: fixed)) /\
    (forall t, In t (common_h2s_of ha) ->
       In t (("Introduction to " ++ kw)%string :: fixed) \/ In t added) /\
    5 <= length (sections o) <= 10.
Proof.
  intros kw ia ha. cbv zeta. unfold _generate_content_outline. cbv zeta.
  split; [destruct (String.eqb (dominant_intent ia) "informational");
          [|destruct (String.eqb (dominant_intent ia) "commercial");
          [|destruct (String.eqb (dominant_intent ia) "transactional")]]; reflexivity|].
  destruct (String.eqb (dominant_intent ia) "informational");
    [|destruct (String.eqb (dominant_intent ia) "commercial");
    [|destruct (String.eqb (dominant_intent ia) "transactional")]];
    cbn [sections];
    match goal with
    | |- context [add_common_h2s ?kw ?h (?i :: ?b)] =>
        match goal with
        | |- context [app (add_common_h2s _ _ _) [?c]] =>
            destruct (outline_from_parts kw ha i b c eq_refl) as (added & H1 & H2 & H3 & H4 & H5);
            exists added
        end
    end;
    (split; [exact H1|]); (split; [exact H2|]); (split; [exact H3|]); (split; [exact H4|exact H5]).
Qed.


(* ------------------------------------------------------------------ *)
(** ** Key topics *)

Lemma dedup_in : forall xs x, In x (dedup xs) <-> In x xs.
Proof.
  induction xs as [|y xs IH]; intros x; cbn; [tauto|].
  rewrite filter_In, IH. destruct (String.eqb_spec y x) as [->|Hne]; cbn; [tauto|].
  split; [intros [H|[H _]]; auto|intros [H|H]; auto].
Qed.

Lemma dedup_nodup : forall xs, NoDup (dedup xs).
Proof.
  induction xs as [|y xs IH]; cbn; constructor.
  - rewrite filter_In, String.eqb_refl. cbn. intros [_ H]. discriminate.
  - now apply NoDup_filter.
Qed.

Lemma dedup_length : forall xs, length (dedup xs) <= length xs.
Proof.
  induction xs as [|y xs IH]; cbn; [lia|].
  pose proof (filter_length_le (fun z => negb (String.eqb y z)) (dedup xs)). lia.
Qed.

Lemma firstn_names_length : forall (l : list (string * nat)), length (map fst (firstn 5 l)) <= 5.
Proof. intros l. rewrite length_map. apply firstn_le_length. Qed.

(** X6: the key topics list each topic once: exactly the top 5 common title
    words, the top 5 common snippet words and the top 5 competitor H2s, so
    at most 15 of them. *)
Theorem key_topics_distinct : forall ia ha,
  NoDup (_extract_key_topics ia ha) /\
  (forall t, In t (_extract_key_topics ia ha) <->
     In t (map fst (firstn 5 (common_title_words ia)) ++
           map fst (firstn 5 (common_description_words ia)) ++ common_h2s_of ha)) /\
  length (_extract_key_topics ia ha) <= 15.
Proof.
  intros ia ha. unfold _extract_key_topics. split; [apply dedup_nodup|split; [intros; apply dedup_in|]].
  eapply Nat.le_trans; [apply dedup_length|].
  rewrite !length_app.
  pose proof (firstn_names_length (common_title_words ia)).
  pose proof (firstn_names_length (common_description_words ia)).
  pose proof (common_h2s_of_length ha). lia.
Qed.

(* ------------------------------------------------------------------ *)
(** ** Collecting the SERP *)

Lemma nth_error_firstn_lt : forall {A} n (l : list A) i,
  i < n -> nth_error (firstn n l) i = nth_error l i.
Proof.
  intros A n. induction n as [|n IH]; intros l i Hi; [lia|].
  destruct l as [|x l]; cbn; [now destruct i|]. destruct i; cbn; [reflexivity|].
  apply IH. lia.
Qed.

Lemma collect_serp_data_results : forall kw resp sd,
  collect_serp_data kw resp = Some sd -> length (organic_results sd) <= 10.
Proof.
  intros kw [st [search|]|m] sd H; unfold collect_serp_data in H; try discriminate.
  - destruct ((400 <=? st) && (st <? 600)); [discriminate|]. injection H as <-.
    unfold organic_results. rewrite length_map. exact (firstn_le_length 10 _).
  - destruct ((400 <=? st) && (st <? 600)); discriminate.
Qed.

(** X7: [collect_serp_data] returns [None] when the request fails, when the
    status is 4xx or 5xx, or when the body is not JSON; otherwise it keeps
    the keyword, the first 10 organic results in order with "" for a
    missing title, snippet or link and 0 for a missing position, and one
    PAA question per related question, "" when its text is missing. *)
Theorem collect_serp_data_shape : forall kw,
  (forall m, collect_serp_data kw (ApiFailure m) = None) /\
  (forall st body, collect_serp_data kw (ApiResponse st body) = None <->
     (400 <= st < 600 \/ body = None)) /\
  (forall st rs qs, (st < 400 \/ 600 <= st) ->
     exists sd, collect_serp_data kw (ApiResponse st (Some (mkApiSearch rs qs))) = Some sd /\
       keyword sd = kw /\
       length (organic_results sd) = Nat.min 10 (length (get_or [] rs)) /\
       (forall i r, i < 10 -> nth_error (get_or [] rs) i = Some r ->
          nth_error (organic_results sd) i =
            Some (mkResult (get_or EmptyString (r_title r)) (get_or EmptyString (r_snippet r))
                           (get_or EmptyString (r_link r)) (get_or 0 (r_position r)))) /\
       length (paa_questions sd) = length (get_or [] qs) /\
       (forall i q, nth_error (get_or [] qs) i = Some q ->
          nth_error (paa_questions sd) i = Some (get_or EmptyString q))).
Proof.
  intros kw. split; [reflexivity|split].
  - intros st body. unfold collect_serp_data.
    destruct ((400 <=? st) && (st <? 600)) eqn:E.
    + apply andb_true_iff in E. destruct E as [E1 E2].
      apply Nat.leb_le in E1. apply Nat.ltb_lt in E2. tauto.
    + apply andb_false_iff in E. destruct body; split; try tauto; try discriminate.
      intros [H|H]; [|discriminate].
      destruct E as [E|E]; [apply Nat.leb_gt in E|apply Nat.ltb_ge in E]; lia.
  - intros st rs qs Hst. unfold collect_serp_data.
    replace ((400 <=? st) && (st <? 600)) with false
      by (symmetry; apply andb_false_iff;
          destruct Hst; [left; apply Nat.leb_gt|right; apply Nat.ltb_ge]; lia).
    eexists. split; [reflexivity|].
    cbn [keyword organic_results paa_questions a_organic_results a_related_questions].
    split; [reflexivity|]. split; [|split; [|split]].
    + rewrite length_map, length_firstn. reflexivity.
    + intros i r Hi Hr. rewrite nth_error_map, nth_error_firstn_lt by exact Hi.
      now rewrite Hr.
    + now rewrite length_map.
    + intros i q Hq. rewrite nth_error_map. now rewrite Hq.
Qed.

(* ------------------------------------------------------------------ *)
(** ** A whole run *)

Lemma analyze_search_intent_dict : forall url_path sd,
  exists a, analyze_search_intent url_path (PyDict sd) = Some a /\
            ia_paa_questions a = paa_questions sd.
Proof. intros url_path [kw rs paa]. eexists. split; reflexivity. Qed.

Lemma generate_seo_content_brief_spec : forall url_path api net key kw st,
  let '(r, st') := generate_seo_content_brief url_path api net key kw st in
  match collect_serp_data kw (api key kw) with
  | None => r = None /\ st' = st
  | Some sd =>
      (exists b, r = Some b /\ brief_keyword b = kw /\
                 faq b = _generate_faq_section (paa_questions sd)) /\
      requested (log st') = requested (log st) ++ map url (organic_results sd) /\
      length (organic_results sd) <= 10 /\
      (forall u, Dict.get u (competitor_headings st') =
         if in_dec string_dec u (map url (organic_results sd))
         then Some (page_headings (net u)) else None)
  end.
Proof.
  intros url_path api net key kw st. unfold generate_seo_content_brief.
  destruct (collect_serp_data kw (api key kw)) as [sd|] eqn:Ec; [|split; reflexivity].
  pose proof (collect_serp_data_results _ _ _ Ec) as Hlen.
  destruct (analyze_search_intent_dict url_path sd) as (a & Ha & Hpaa).
  pose proof (extract_loop_run net (organic_results sd) [] st) as H.
  unfold extract_competitor_headings, bind, set_competitor_headings, get_state, ret.
  destruct (extract_loop net (organic_results sd) [] st) as [ch st'].
  destruct H as (R1 & R2 & R3 & R4). cbn [competitor_headings log].
  rewrite Ha. split; [|split; [exact R1|split; [exact Hlen|]]].
  - eexists. split; [reflexivity|]. cbn. split; [reflexivity|]. now rewrite Hpaa.
  - intros u. destruct (in_dec string_dec u (map url (organic_results sd))) as [Hin|Hn].
    + now apply R3.
    + now rewrite R4.
Qed.

(** X8: a run that cannot collect the SERP returns [None] and leaves the
    generator untouched; otherwise it returns a brief for the keyword whose
    FAQ is built from the SERP's PAA questions, requests exactly the (at
    most 10) result URLs in order, and leaves [competitor_headings] holding
    the headings of exactly those pages. *)
Theorem seo_brief_run : forall url_path api net key kw st,
  let '(r, st') := generate_seo_content_brief url_path api net key kw st in
  match collect_serp_data kw (api key kw) with
  | None => r = None /\ st' = st
  | Some sd =>
      (exists b, r = Some b /\ brief_keyword b = kw /\
                 faq b = _generate_faq_section (paa_questions sd)) /\
      requested (log st') = requested (log st) ++ map url (organic_results sd) /\
      length (organic_results sd) <= 10 /\
      (forall u, Dict.get u (competitor_headings st') =
         if in_dec string_dec u (map url (organic_results sd))
         then Some (page_headings (net u)) else None)
  end.
Proof. exact generate_seo_content_brief_spec. Qed.

Lemma level_of_empty : forall l, level_of l empty_headings = [].
Proof.
  intros l. unfold level_of, empty_headings. cbn.
  repeat match goal with |- context [String.eqb ?a ?b] => destruct (String.eqb a b) end;
  reflexivity.
Qed.

Lemma dict_set_forall : forall {V} (P : V -> Prop) k v (d : list (string * V)),
  P v -> Forall (fun p => P (snd p)) d -> Forall (fun p => P (snd p)) (Dict.set k v d).
Proof.
  intros V P k v d Hv. induction d as [|[k' v'] d IH]; cbn; intros Hd.
  - now constructor.
  - inversion Hd as [|? ? H1 H2]; subst. destruct (String.eqb k k'); constructor; auto.
Qed.

Lemma extract_loop_all_fail : forall net rs acc st,
  (forall u, In u (map url rs) -> page_fails (net u) = true) ->
  Forall (fun p => snd p = empty_headings) acc ->
  Forall (fun p => snd p = empty_headings) (fst (extract_loop net rs acc st)).
Proof.
  intros net. induction rs as [|r rs IH]; intros acc st Hf Hacc; cbn; [exact Hacc|].
  unfold bind at 1. pose proof (extract_headings_from_url_run net (url r) st) as (H1 & _ & _).
  destruct (extract_headings_from_url net (url r) st) as [hs st1]. cbn in H1.
  unfold bind, emit. cbn. apply IH.
  - intros u Hu. apply Hf. now right.
  - apply (dict_set_forall (fun hs => hs = empty_headings)); [|exact Hacc].
    rewrite H1. unfold page_headings. specialize (Hf (url r) (or_introl eq_refl)).
    unfold page_fails in Hf. destruct (fetch_and_parse (net (url r))); [reflexivity|discriminate].
Qed.

Lemma level_texts_all_empty : forall l (ch : list (string * headings)),
  Forall (fun p => snd p = empty_headings) ch ->
  flat_map (fun '(_, hs) => level_of l hs) ch = [].
Proof.
  intros l ch Hch. induction Hch as [|[u hs] r H1 _ IH]; [reflexivity|].
  cbn in H1 |- *. subst hs. rewrite level_of_empty. exact IH.
Qed.

Lemma all_empty_no_common : forall ch a,
  Forall (fun p => snd p = empty_headings) ch ->
  analyze_competitor_headings ch = Some a -> common_headings a = [].
Proof.
  intros ch a Hch Ha. destruct ch as [|p ch]; [discriminate|].
  set (G := fun level => flat_map (fun '(_, hs) => level_of level hs) (p :: ch)).
  set (K := (fun '(level, ts) =>
               match ts with
               | [] => []
               | _ => [(level, most_common 10 (counter ts))]
               end) : string * list string -> list (string * list (string * nat))).
  assert (a = mkHeadingsAnalysis (map (fun level => (level, G level)) heading_levels)
                (flat_map K (map (fun level => (level, G level)) heading_levels))) as ->.
  { enough (Some a = Some (mkHeadingsAnalysis (map (fun level => (level, G level)) heading_levels)
                (flat_map K (map (fun level => (level, G level)) heading_levels)))) by congruence.
    rewrite <- Ha. reflexivity. }
  assert (forall l, G l = []) as E.
  { intros l. exact (level_texts_all_empty l (p :: ch) Hch). }
  cbn [common_headings].
  rewrite (map_ext (fun level => (level, G level)) (fun level => (level, @nil string)))
    by (intros l; now rewrite E).
  reflexivity.
Qed.

(** X9: when the SERP is collected but every result page fails to load or
    parse, a brief is still produced; it has no competitor common headings,
    its outline gets no competitor sections (exactly 5 sections) and its key
    topics, each listed once, are exactly the top 5 common title words and
    the top 5 common snippet words of the SERP's intent analysis. *)
Theorem all_pages_fail_brief : forall url_path api net key kw st,
  collect_serp_data kw (api key kw) <> None ->
  (forall sd, collect_serp_data kw (api key kw) = Some sd ->
     forall u, In u (map url (organic_results sd)) -> page_fails (net u) = true) ->
  exists sd a b,
    collect_serp_data kw (api key kw) = Some sd /\
    analyze_search_intent url_path (PyDict sd) = Some a /\
    fst (generate_seo_content_brief url_path api net key kw st) = Some b /\
    competitor_common_headings b = [] /\
    length (sections (content_outline b)) = 5 /\
    NoDup (key_topics b) /\
    (forall t, In t (key_topics b) <->
       In t (map fst (firstn 5 (common_title_words a)) ++
             map fst (firstn 5 (common_description_words a)))).
Proof.
  intros url_path api net key kw st Hc Hf. unfold generate_seo_content_brief.
  destruct (collect_serp_data kw (api key kw)) as [sd|] eqn:Ec; [|congruence].
  specialize (Hf sd eq_refl).
  destruct (analyze_search_intent_dict url_path sd) as (a & Ha & _).
  pose proof (extract_loop_all_fail net (organic_results sd) [] st Hf (Forall_nil _)) as Hall.
  unfold extract_competitor_headings, bind, set_competitor_headings, get_state, ret.
  destruct (extract_loop net (organic_results sd) [] st) as [ch st']. cbn in Hall.
  cbn [competitor_headings fst]. rewrite Ha.
  assert (common_h2s_of (pyval_of_option (analyze_competitor_headings ch)) = []) as Hh.
  { destruct (analyze_competitor_headings ch) as [h|] eqn:Eh; [|reflexivity].
    cbn. now rewrite (all_empty_no_common ch h Hall Eh). }
  exists sd, a. eexists. split; [reflexivity|]. split; [exact Ha|]. split; [reflexivity|].
  cbn [competitor_common_headings content_outline key_topics].
  split; [|split; [|split]].
  - destruct (analyze_competitor_headings ch) as [h|] eqn:Eh; [|reflexivity].
    exact (all_empty_no_common ch h Hall Eh).
  - unfold _generate_content_outline. rewrite Hh. cbv zeta.
    destruct (String.eqb (dominant_intent a) "informational");
      [|destruct (String.eqb (dominant_intent a) "commercial");
      [|destruct (String.eqb (dominant_intent a) "transactional")]]; reflexivity.
  - apply dedup_nodup.
  - intros t. unfold _extract_key_topics. rewrite Hh, app_nil_r. apply dedup_in.
Qed.

Lemma all_pages_fail_brief_witness :
  let api := fun _ _ : string => ApiResponse 200
    (Some (mkApiSearch (Some [mkApiResult (Some "Phone review"%string) None
                                          (Some "https://a.example/x"%string) (Some 1)]) None)) in
  let net := fun _ : string => ConnectionFailure "timeout"%string in
  collect_serp_data "phone"%string (api "key"%string "phone"%string) <> None /\
  (forall sd, collect_serp_data "phone"%string (api "key"%string "phone"%string) = Some sd ->
     forall u, In u (map url (organic_results sd)) -> page_fails (net u) = true) /\
  exists sd a b,
    collect_serp_data "phone"%string (api "key"%string "phone"%string) = Some sd /\
    analyze_search_intent (fun _ => EmptyString) (PyDict sd) = Some a /\
    fst (generate_seo_content_brief (fun _ => EmptyString) api net "key"%string "phone"%string
           (mkGen [] [])) = Some b /\
    competitor_common_headings b = [] /\
    length (sections (content_outline b)) = 5 /\
    NoDup (key_topics b) /\
    (forall t, In t (key_topics b) <->
       In t (map fst (firstn 5 (common_title_words a)) ++
             map fst (firstn 5 (common_description_words a)))).
Proof.
  intros api net. split; [unfold api; vm_compute; discriminate|split; [intros sd _ u _; reflexivity|]].
  apply (all_pages_fail_brief (fun _ => EmptyString) api net "key"%string "phone"%string (mkGen [] []));
    [unfold api; vm_compute; discriminate|intros sd _ u _; reflexivity].
Defined.

(* ------------------------------------------------------------------ *)
(** ** The button handler *)

(** X10: with a non-empty API key and keyword, a click offers the JSON
    download, named [download_file_name keyword], exactly when the SerpAPI
    answer is collected; the brief is then for that keyword and the pages
    requested are exactly the SERP's result URLs in order. When the answer
    is not collected there is neither brief nor download and no page is
    requested. *)
Theorem main_click_download : forall url_path api net key kw st,
  key <> EmptyString -> kw <> EmptyString ->
  let '(o, st') := main_on_click url_path api net key kw st in
  match collect_serp_data kw (api key kw) with
  | None => o = Ran None None /\ log st' = log st
  | Some sd =>
      exists b, o = Ran (Some b) (Some (download_file_name kw)) /\
        brief_keyword b = kw /\
        requested (log st') = requested (log st) ++ map url (organic_results sd)
  end.
Proof.
  intros url_path api net key kw st Hk Hw. unfold main_on_click.
  destruct (String.eqb_spec key EmptyString) as [|_]; [congruence|].
  destruct (String.eqb_spec kw EmptyString) as [|_]; [congruence|].
  pose proof (generate_seo_content_brief_spec url_path api net key kw (mkGen [] (log st))) as H.
  destruct (generate_seo_content_brief url_path api net key kw (mkGen [] (log st))) as [r s'].
  destruct (collect_serp_data kw (api key kw)) as [sd|].
  - destruct H as ((b & -> & Hkw & _) & Hreq & _). exists b. split; [reflexivity|].
    split; [exact Hkw|exact Hreq].
  - destruct H as [-> ->]. split; reflexivity.
Qed.

Lemma main_click_download_witness :
  let api := fun _ _ : string => ApiResponse 200
    (Some (mkApiSearch (Some [mkApiResult (Some "Phone review"%string) None
                                          (Some "https://a.example/x"%string) (Some 1)]) None)) in
  let net := fun _ : string => ConnectionFailure "timeout"%string in
  "key"%string <> EmptyString /\ "phone"%string <> EmptyString /\
  let '(o, st') := main_on_click (fun _ => EmptyString) api net "key"%string "phone"%string
                     (mkGen [] []) in
  match collect_serp_data "phone"%string (api "key"%string "phone"%string) with
  | None => o = Ran None None /\ log st' = log (mkGen [] [])
  | Some sd =>
      exists b, o = Ran (Some b) (Some (download_file_name "phone"%string)) /\
        brief_keyword b = "phone"%string /\
        requested (log st') = requested (log (mkGen [] [])) ++ map url (organic_results sd)
  end.
Proof.
  intros api net. split; [discriminate|split; [discriminate|]].
  apply (main_click_download (fun _ => EmptyString) api net "key"%string "phone"%string (mkGen [] []));
    discriminate.
Defined.

Lemma replace_space_spec : forall s,
  String.length (replace_space s) = String.length s /\
  ~ In " "%char (list_ascii_of_string (replace_space s)) /\
  (forall i c, String.get i s = Some c -> c <> " "%char -> String.get i (replace_space s) = Some c).
Proof.
  induction s as [|c s (IH1 & IH2 & IH3)]; cbn.
  - split; [reflexivity|split; [tauto|intros i c H; now destruct i]].
  - split; [now rewrite IH1|split].
    + intros [H|H]; [|tauto].
      destruct (Ascii.eqb_spec c " "%char); [discriminate|congruence].
    + intros [|i] c' H Hc; cbn in H.
      * injection H as <-. destruct (Ascii.eqb_spec c " "%char); [congruence|reflexivity].
      * now apply IH3.
Qed.

(** X11: the download is named "<keyword>_seo_brief.json" with every space
    of the keyword replaced: the stem has the keyword's length, no space,
    and every other character of the keyword in its place. *)
Theorem download_file_name_shape : forall kw,
  exists stem,
    download_file_name kw = (stem ++ "_seo_brief.json")%string /\
    String.length stem = String.length kw /\
    ~ In " "%char (list_ascii_of_string stem) /\
    (forall i c, String.get i kw = Some c -> c <> " "%char -> String.get i stem = Some c).
Proof.
  intros kw. exists (replace_space kw). split; [reflexivity|]. apply replace_space_spec.
Qed.
